(** * Station metadata harvest ([sensorml.py]): a shallow embedding

    [get_stations_df] walks the SensorML document of every station of an
    SOS endpoint and flattens it into one row of a table indexed by the
    station URN.  The Python is translated function by function: strings are
    [string], the [contacts_dct] dictionary is a [gmap], the [OrderedDict]
    of a station is an association list in insertion order, exceptions are
    the [Raise] branch of a result type, and the operations the module
    imports from OWSLib, pyoos and the network are the fields of the
    [Imports] class. *)

From Stdlib Require Import Ascii String.
From stdpp Require Import gmap strings list fin_maps.

#[local] Open Scope string_scope.

(** ** Python values: exceptions, sequences, strings *)

Module Py.

(** The exceptions the module can raise.  [External] stands for whatever an
    imported operation (transport, XML parsing) raises on its own. *)
Inductive exn : Type :=
| AttributeError
| IndexError
| KeyError (key : string)
| ValueError
| TypeError
| UnboundLocalError (var : string)
| External (what : string).

Inductive result (A : Type) : Type :=
| Ok (a : A)
| Raise (e : exn).
Arguments Ok {A} a.
Arguments Raise {A} e.

Definition bind {A B} (r : result A) (k : A -> result B) : result B :=
  match r with
  | Ok a => k a
  | Raise e => Raise e
  end.

Definition is_ok {A} (r : result A) : bool :=
  match r with Ok _ => true | Raise _ => false end.

(** [x.attr] or [x.method()] where [x] may be [None]. *)
Definition deref {A} (o : option A) : result A :=
  match o with
  | Some a => Ok a
  | None => Raise AttributeError
  end.

(** [l[i]] for a non-negative [i]. *)
Definition item {A} (l : list A) (i : nat) : result A :=
  match l !! i with
  | Some a => Ok a
  | None => Raise IndexError
  end.

(** [l[-1]]. *)
Definition item_last {A} (l : list A) : result A :=
  match last l with
  | Some a => Ok a
  | None => Raise IndexError
  end.

(** [[f(x) for x in l]]: left to right, the first exception escapes. *)
Fixpoint comprehension {A B} (f : A -> result B) (l : list A) : result (list B) :=
  match l with
  | [] => Ok []
  | x :: l' =>
      match f x with
      | Raise e => Raise e
      | Ok y =>
          match comprehension f l' with
          | Raise e => Raise e
          | Ok ys => Ok (y :: ys)
          end
      end
  end.

(** [x in l] on a list of strings. *)
Definition contains (x : string) (l : list string) : bool :=
  existsb (String.eqb x) l.

(** [s.split(sep)] for a one-character separator: never empty, an empty
    field between two adjacent separators. *)
Fixpoint split (sep : ascii) (s : string) : list string :=
  match s with
  | EmptyString => [EmptyString]
  | String c s' =>
      if Ascii.eqb c sep then EmptyString :: split sep s'
      else match split sep s' with
           | field :: fields => String c field :: fields
           | [] => [String c EmptyString]
           end
  end.

(** The characters [str.isspace] accepts in a byte string. *)
Definition isspace (c : ascii) : bool :=
  let n := nat_of_ascii c in
  Nat.eqb n 32 || (Nat.leb 9 n && Nat.leb n 13).

(** [s.split()] scans for maximal runs of non-blank characters.  The
    auxiliary function returns the run that starts the string (empty when
    the string starts with a blank) and the later runs. *)
Fixpoint split_runs (s : string) : string * list string :=
  match s with
  | EmptyString => (EmptyString, [])
  | String c s' =>
      let '(run, runs) := split_runs s' in
      if isspace c then
        (EmptyString, match run with EmptyString => runs | _ => run :: runs end)
      else (String c run, runs)
  end.

Definition split_ws (s : string) : list string :=
  let '(run, runs) := split_runs s in
  match run with EmptyString => runs | _ => run :: runs end.

(** [sep.join(l)]. *)
Fixpoint join (sep : string) (l : list string) : string :=
  match l with
  | [] => EmptyString
  | [x] => x
  | x :: l' => x +:+ sep +:+ join sep l'
  end.

(** The character [c] occurs in [s]. *)
Fixpoint occurs (c : ascii) (s : string) : bool :=
  match s with
  | EmptyString => false
  | String c' s' => Ascii.eqb c' c || occurs c s'
  end.

(** The text after the last [sep] of [s]; all of [s] when it has none. *)
Fixpoint after_last (sep : ascii) (s : string) : string :=
  match s with
  | EmptyString => EmptyString
  | String c s' =>
      if occurs sep s' then after_last sep s'
      else if Ascii.eqb c sep then s' else String c s'
  end.

(** Some blank occurs in [s]. *)
Fixpoint has_space (s : string) : bool :=
  match s with
  | EmptyString => false
  | String c s' => isspace c || has_space s'
  end.

(** Every character of [s] is a blank. *)
Fixpoint all_space (s : string) : bool :=
  match s with
  | EmptyString => true
  | String c s' => isspace c && all_space s'
  end.

End Py.
Export Py.

Declare Scope py_scope.
Notation "'try!' x ':=' r 'in' k" := (bind r (fun x => k))
  (at level 10, x name, r at level 100, k at level 200) : py_scope.
#[local] Open Scope py_scope.

(** ** Element trees

    An element as [xml.etree] presents it: its tag, its attribute dictionary,
    its text and its children in document order.  A path is the list of the
    steps of a slash-separated location path, each a qualified tag. *)

Module ET.

#[warnings="-register-all"] Inductive element : Type :=
  Element (tag : string) (attrib : gmap string string)
          (text : option string) (children : list element).

Definition tag (e : element) : string :=
  let 'Element t _ _ _ := e in t.
Definition attrib (e : element) : gmap string string :=
  let 'Element _ a _ _ := e in a.
Definition text (e : element) : option string :=
  let 'Element _ _ x _ := e in x.
Definition children (e : element) : list element :=
  let 'Element _ _ _ c := e in c.

Definition path : Type := list string.

(** One step of a path: the children with that tag, of each element of
    the current selection in turn. *)
Definition step (t : string) (es : list element) : list element :=
  List.filter (fun c => String.eqb (tag c) t) (flat_map children es).

Fixpoint select (p : path) (es : list element) : list element :=
  match p with
  | [] => es
  | t :: p' => select p' (step t es)
  end.

(** [e.findall(path)] and [e.find(path)]. *)
Definition findall (e : element) (p : path) : list element := select p [e].
Definition find (e : element) (p : path) : option element := head (findall e p).

(** [e.attrib[key]]. *)
Definition getattr (e : element) (key : string) : result string :=
  match attrib e !! key with
  | Some v => Ok v
  | None => Raise (KeyError key)
  end.

End ET.
Export ET.

(** ** Objects of the imported libraries *)

(** [owslib.swe.sensor.sml]: the attributes the harvest reads. *)
Module sml.
Module Contact.
Record t : Type :=
  { role : option string;
    organization : option string;
    country : option string;
    url : option string }.
End Contact.
Module Document.
Record t : Type := { url : option string }.
End Document.
Module Documentation.
Record t : Type := { documents : list Document.t }.
End Documentation.
End sml.

(** An offering of the capabilities document. *)
Module sos.
Record offering : Type := { name : string }.
End sos.

(** The object [IoosDescribeSensor] builds ([ds] in the source), with the
    attributes the harvest reads; [system_location] is
    [ds.system.location]. *)
Record DescribeSensor (datetime : Type) : Type :=
  { system_location : option element;
    shortName : option string;
    longName : option string;
    platformType : option string;
    starting : option datetime;
    ending : option datetime;
    get_ioos_def : string -> string -> string -> option string }.
Arguments system_location {datetime} _.
Arguments shortName {datetime} _.
Arguments longName {datetime} _.
Arguments platformType {datetime} _.
Arguments starting {datetime} _.
Arguments ending {datetime} _.
Arguments get_ioos_def {datetime} _ _ _ _.

(** What [sensorml.py] imports: the built-in [float], [datetime], the OWSLib
    helpers, the pyoos parser with its ontology prefix [ont], and the two
    SOS clients, over the types of floats, of time stamps, of the service
    object of the first client and of the collector of the second.  An
    operation that can raise returns a [result]; [float] returns [None]
    where Python raises [ValueError]. *)
Class Imports (pyfloat datetime service collector : Type) : Type :=
  { float : string -> option pyfloat;
    isoformat : datetime -> string;
    urlencode : gmap string string -> string;
    Namespaces_get_namespaces : list string -> gmap string string;
    nspath_eval : string -> gmap string string -> path;
    testXMLValue : option element -> option string;
    Contact : element -> sml.Contact.t;
    Documentation : element -> sml.Documentation.t;
    ont : string;
    IoosDescribeSensor : element -> result (DescribeSensor datetime);
    SensorObservationService : string -> result service;
    describe_sensor : service -> string -> string -> nat -> result string;
    SensorML : string -> result element;
    IoosSweSos : string -> result collector;
    offerings : collector -> list sos.offering;
    metadata : collector -> list string -> nat -> result (list element) }.

(** ** The harvest *)

Section Harvest.

Context {pyfloat datetime service collector : Type}.
Context `{imports : !Imports pyfloat datetime service collector}.

Definition get_namespaces : gmap string string :=
  let n := Namespaces_get_namespaces ["sml"; "gml"; "xlink"; "swe"] in
  <["ism" := "urn:us:gov:ic:ism:v2"]> n.

Definition namespaces : gmap string string := get_namespaces.

Definition nsp (p : string) : path := nspath_eval p namespaces.

(** *** Cells, ordered dictionaries and the data frame *)

(** What a cell of a station dictionary or of the table holds.  [VNaN] is
    the filler pandas uses for a key a record lacks, [VInt] a label of the
    default integer index. *)
Inductive value : Type :=
| VNone
| VStr (s : string)
| VFloat (x : pyfloat)
| VDatetime (d : datetime)
| VInt (n : nat)
| VNaN.

(** An attribute that may be [None], stored as it is. *)
Definition str_or_none (o : option string) : value :=
  match o with
  | Some s => VStr s
  | None => VNone
  end.

(** [OrderedDict]: keys in order of first insertion. *)
Definition OrderedDict : Type := list (string * value).

Fixpoint setitem (d : OrderedDict) (k : string) (v : value) : OrderedDict :=
  match d with
  | [] => [(k, v)]
  | (k', v') :: d' =>
      if String.eqb k' k then (k', v) :: d' else (k', v') :: setitem d' k v
  end.

Fixpoint getitem (d : OrderedDict) (k : string) : option value :=
  match d with
  | [] => None
  | (k', v') :: d' => if String.eqb k' k then Some v' else getitem d' k
  end.

Definition keys (d : OrderedDict) : list string := map fst d.

(** The part of a pandas [DataFrame] the harvest touches: column labels,
    row labels and the rows, each aligned with the columns. *)
Record DataFrame : Type :=
  { columns : list string;
    index : list value;
    data : list (list value) }.

(** [pd.DataFrame.from_records(recs, columns=cols)] on a list of
    dictionaries: one row per record, one cell per requested column. *)
Definition from_records (recs : list OrderedDict) (cols : list string) : DataFrame :=
  {| columns := cols;
     index := map VInt (seq 0 (length recs));
     data := map (fun r => map (fun c => default VNaN (getitem r c)) cols) recs |}.

Fixpoint position (c : string) (cols : list string) : option nat :=
  match cols with
  | [] => None
  | c' :: cols' => if String.eqb c' c then Some 0 else S <$> position c cols'
  end.

(** [df[c]]: the cells of the first column labelled [c]. *)
Definition column (df : DataFrame) (c : string) : result (list value) :=
  match position c (columns df) with
  | Some i => Ok (map (fun row => default VNaN (row !! i)) (data df))
  | None => Raise (KeyError c)
  end.

(** [df.index = labels]: any labels of the right number, repeated or not. *)
Definition set_index (df : DataFrame) (labels : list value) : result DataFrame :=
  if Nat.eqb (length labels) (length (data df))
  then Ok {| columns := columns df; index := labels; data := data df |}
  else Raise ValueError.

(** *** One station (the body of the loop, lines 58 to 118) *)

(** Line 60. *)
Definition get_pos (ds : DescribeSensor datetime) : result (option string) :=
  try! location := deref (system_location ds) in
  Ok (testXMLValue (find location (nsp "gml:Point/gml:pos"))).

(** Line 62; the later [system_el.findall] needs an element. *)
Definition get_system_el (root : element) : result (option element) :=
  try! member := item (findall root (nsp "sml:member")) 0 in
  Ok (find member (nsp "sml:System")).

(** Lines 66 to 71. *)
Definition get_webpage_url (system_el : option element) : result (option string) :=
  try! el := deref system_el in
  let documents := findall el (nsp "sml:documentation/sml:DocumentList/sml:member") in
  match documents with
  | first :: _ =>
      let document := Documentation first in
      try! d := item (sml.Documentation.documents document) 0 in
      Ok (sml.Document.url d)
  | [] => Ok None
  end.

(** Line 77. *)
Definition role_key (contact : sml.Contact.t) : result string :=
  try! role := deref (sml.Contact.role contact) in
  item_last (split "/" role).

(** Lines 74 to 78: the loop over the contact members. *)
Fixpoint fill_contacts (contacts : list element)
    (contacts_dct : gmap string sml.Contact.t) : result (gmap string sml.Contact.t) :=
  match contacts with
  | [] => Ok contacts_dct
  | c :: contacts' =>
      let contact := Contact c in
      try! role := role_key contact in
      fill_contacts contacts' (<[role := contact]> contacts_dct)
  end.

(** Lines 73 to 78. *)
Definition get_contacts_dct (system_el : option element)
    : result (gmap string sml.Contact.t) :=
  try! el := deref system_el in
  let contacts := findall el (nsp "sml:contact/sml:ContactList/sml:member") in
  fill_contacts contacts ∅.

(** Lines 80 and 81. *)
Definition get_quant_lst (system_el : option element) : result (list string) :=
  try! el := deref system_el in
  let sweQuants :=
    findall el (nsp "sml:outputs/sml:OutputList/sml:output/swe:Quantity") in
  comprehension (fun sweQuant => getattr sweQuant "definition") sweQuants.

(** Line 82. *)
Definition get_parameter_lst (quant_lst : list string) : result (list string) :=
  comprehension (fun sweQuant => item_last (split "/" sweQuant)) quant_lst.

(** [float(pos.split()[i])]. *)
Definition float_token (pos : option string) (i : nat) : result pyfloat :=
  try! p := deref pos in
  try! token := item (split_ws p) i in
  match float token with
  | Some x => Ok x
  | None => Raise ValueError
  end.

(** [contacts_dct[role]]. *)
Definition contact_for (contacts_dct : gmap string sml.Contact.t) (role : string)
    : result sml.Contact.t :=
  match contacts_dct !! role with
  | Some c => Ok c
  | None => Raise (KeyError role)
  end.

(** [datetime.isoformat(t)]. *)
Definition isoformat_of (t : option datetime) : result string :=
  match t with
  | Some d => Ok (isoformat d)
  | None => Raise TypeError
  end.

Definition time_or_none (t : option datetime) : value :=
  match t with
  | Some d => VDatetime d
  | None => VNone
  end.

(** Lines 84 to 118: the dictionary of one station, key by key. *)
Definition fill_station (station_urn : string) (ds : DescribeSensor datetime)
    (pos webpage_url : option string) (contacts_dct : gmap string sml.Contact.t)
    (quant_lst parameter_lst : list string) : result OrderedDict :=
  let station : OrderedDict := [] in
  let station := setitem station "station_urn" (VStr station_urn) in
  try! lon := float_token pos 1 in
  let station := setitem station "lon" (VFloat lon) in
  try! lat := float_token pos 0 in
  let station := setitem station "lat" (VFloat lat) in
  let station := setitem station "shortName" (str_or_none (shortName ds)) in
  let station := setitem station "longName" (str_or_none (longName ds)) in
  let station :=
    setitem station "wmoID" (str_or_none (get_ioos_def ds "wmoID" "identifier" ont)) in
  let station := setitem station "platformType" (str_or_none (platformType ds)) in
  let station :=
    setitem station "parentNetwork"
      (str_or_none (get_ioos_def ds "parentNetwork" "classifier" ont)) in
  let station :=
    setitem station "sponsor" (str_or_none (get_ioos_def ds "sponsor" "classifier" ont)) in
  let station := setitem station "webpage_url" (str_or_none webpage_url) in
  let station :=
    setitem station "operatorSector"
      (str_or_none (get_ioos_def ds "operatorSector" "classifier" ont)) in
  try! operator := contact_for contacts_dct "operator" in
  let station :=
    setitem station "operator_org" (str_or_none (sml.Contact.organization operator)) in
  try! operator := contact_for contacts_dct "operator" in
  let station :=
    setitem station "operator_country" (str_or_none (sml.Contact.country operator)) in
  try! operator := contact_for contacts_dct "operator" in
  let station := setitem station "operator_url" (str_or_none (sml.Contact.url operator)) in
  let station :=
    setitem station "publisher" (str_or_none (get_ioos_def ds "publisher" "classifier" ont)) in
  try! publisher := contact_for contacts_dct "publisher" in
  let station :=
    setitem station "publisher_org" (str_or_none (sml.Contact.organization publisher)) in
  try! publisher := contact_for contacts_dct "publisher" in
  let station := setitem station "publisher_url" (str_or_none (sml.Contact.url publisher)) in
  let station := setitem station "starting" (time_or_none (starting ds)) in
  let station := setitem station "ending" (time_or_none (ending ds)) in
  try! starting_isostr := isoformat_of (starting ds) in
  let station := setitem station "starting_isostr" (VStr starting_isostr) in
  try! ending_isostr := isoformat_of (ending ds) in
  let station := setitem station "ending_isostr" (VStr ending_isostr) in
  let station := setitem station "parameter_uris" (VStr (join "," quant_lst)) in
  let station := setitem station "parameters" (VStr (join "," parameter_lst)) in
  Ok station.

(** Lines 58 to 118 on the root element of one SensorML document. *)
Definition build_station (station_urn : string) (root : element) : result OrderedDict :=
  try! ds := IoosDescribeSensor root in
  try! pos := get_pos ds in
  try! system_el := get_system_el root in
  try! webpage_url := get_webpage_url system_el in
  try! contacts_dct := get_contacts_dct system_el in
  try! quant_lst := get_quant_lst system_el in
  try! parameter_lst := get_parameter_lst quant_lst in
  fill_station station_urn ds pos webpage_url contacts_dct quant_lst parameter_lst.

(** *** The loop and the table (lines 36 to 125) *)

Definition dquote : string := String (ascii_of_nat 34) EmptyString.

Definition oFrmt : string :=
  "text/xml; subtype=" +:+ dquote +:+ "sensorML/1.0.1/profiles/ioos_sos/1.0" +:+ dquote.

(** Lines 44 and 45: the offerings no colon-separated part of whose name
    is [network]. *)
Definition default_station_urns (offs : list sos.offering) : list string :=
  map sos.name
    (List.filter (fun urn => negb (contains "network" (split ":" (sos.name urn)))) offs).

(** Where the documents come from: one request per station when the
    caller names the stations, the batch fetched beforehand otherwise. *)
Inductive source : Type :=
| Selected (sosgc : service)
| Discovered (sml_lst : list element).

(** Lines 51 to 56: the root element of the document of one station. *)
Definition fetch (src : source) (station_idx : nat) (station_urn : string)
    : result element :=
  match src with
  | Selected sosgc =>
      try! sml_str := describe_sensor sosgc station_urn oFrmt 200 in
      SensorML sml_str
  | Discovered sml_lst => item sml_lst station_idx
  end.

(** The names of the function that outlive an iteration of the loop:
    [station] is unbound until the body has run once. *)
Record locals : Type :=
  { station_recs : list OrderedDict;
    station : option OrderedDict }.

(** Lines 51 to 118: the dictionary the body builds for one station. *)
Definition station_of (src : source) (station_idx : nat) (station_urn : string)
    : result OrderedDict :=
  try! root := fetch src station_idx station_urn in
  build_station station_urn root.

(** One iteration: the dictionary is bound to [station] and appended. *)
Definition loop_body (src : source) (l : locals) (station_idx : nat)
    (station_urn : string) : result locals :=
  try! rec := station_of src station_idx station_urn in
  Ok {| station_recs := station_recs l ++ [rec]; station := Some rec |}.

(** [for station_idx, station_urn in enumerate(station_urns)]. *)
Fixpoint loop (src : source) (l : locals) (station_idx : nat)
    (station_urns : list string) : result locals :=
  match station_urns with
  | [] => Ok l
  | station_urn :: rest =>
      try! l' := loop_body src l station_idx station_urn in
      loop src l' (S station_idx) rest
  end.

(** Reading the name [station] after the loop. *)
Definition read_station (l : locals) : result OrderedDict :=
  match station l with
  | Some d => Ok d
  | None => Raise (UnboundLocalError "station")
  end.

(** Lines 38 to 47: the URNs to process and where their documents are. *)
Definition station_source (sos_url : string) (station_urns_sel : option (list string))
    : result (list string * source) :=
  match station_urns_sel with
  | Some sel =>
      let params : gmap string string :=
        <["service" := "SOS"]>
          (<["request" := "GetCapabilities"]> (<["acceptVersions" := "1.0.0"]> ∅)) in
      try! sosgc := SensorObservationService (sos_url +:+ "?" +:+ urlencode params) in
      Ok (sel, Selected sosgc)
  | None =>
      try! sos_collector := IoosSweSos sos_url in
      let station_urns := default_station_urns (offerings sos_collector) in
      try! sml_lst := metadata sos_collector station_urns 200 in
      Ok (station_urns, Discovered sml_lst)
  end.

(** Lines 49 to 125: the loop, then the table. *)
Definition tabulate (src : source) (station_urns : list string) : result DataFrame :=
  try! l := loop src {| station_recs := []; station := None |} 0 station_urns in
  try! last_station := read_station l in
  let stations_df := from_records (station_recs l) (keys last_station) in
  try! labels := column stations_df "station_urn" in
  set_index stations_df labels.

Definition get_stations_df (sos_url : string) (station_urns_sel : option (list string))
    : result DataFrame :=
  try! setup := station_source sos_url station_urns_sel in
  tabulate (snd setup) (fst setup).

(** *** Vocabulary of the statements *)

(** The keys of a station dictionary, in the order lines 85 to 118 insert
    them. *)
Definition station_columns : list string :=
  [ "station_urn"; "lon"; "lat"; "shortName"; "longName"; "wmoID";
    "platformType"; "parentNetwork"; "sponsor"; "webpage_url";
    "operatorSector"; "operator_org"; "operator_country"; "operator_url";
    "publisher"; "publisher_org"; "publisher_url"; "starting"; "ending";
    "starting_isostr"; "ending_isostr"; "parameter_uris"; "parameters" ].

(** The row of the table a station dictionary becomes. *)
Definition row_of (rec : OrderedDict) : list value :=
  map (fun c => default VNaN (getitem rec c)) station_columns.

(** The contact members of a system element, in document order. *)
Definition contact_members (el : element) : list element :=
  findall el (nsp "sml:contact/sml:ContactList/sml:member").

(** The document-list members of a system element, in document order. *)
Definition document_members (el : element) : list element :=
  findall el (nsp "sml:documentation/sml:DocumentList/sml:member").

(** The quantities of the output list of a system element, in document
    order. *)
Definition quantities (el : element) : list element :=
  findall el (nsp "sml:outputs/sml:OutputList/sml:output/swe:Quantity").

(** The contact member [c] has the role key [key]. *)
Definition has_role (key : string) (c : element) : bool :=
  match role_key (Contact c) with
  | Ok k => String.eqb k key
  | Raise _ => false
  end.

(** The contacts built from the members whose role key is [key]. *)
Definition contacts_with_role (key : string) (contacts : list element)
    : list sml.Contact.t :=
  map Contact (List.filter (has_role key) contacts).

(** The contact member [c] yields a role key at all. *)
Definition has_role_key (c : element) : bool := is_ok (role_key (Contact c)).

(** The quantity [q] declares a definition. *)
Definition has_definition (q : element) : bool :=
  match attrib q !! "definition" with
  | Some _ => true
  | None => false
  end.

(** The reading of the default station set that looks at one fixed
    position [k] of the colon-separated name only: an offering is kept
    unless the part at position [k] is [network]. *)
Definition fixed_position_urns (k : nat) (offs : list sos.offering) : list string :=
  map sos.name
    (List.filter
       (fun urn => negb (bool_decide (split ":" (sos.name urn) !! k = Some "network")))
       offs).


(** The dictionaries of the stations from position [station_idx] on, in
    processing order; the first failure escapes. *)
Fixpoint records (src : source) (station_idx : nat) (station_urns : list string)
    : result (list OrderedDict) :=
  match station_urns with
  | [] => Ok []
  | station_urn :: rest =>
      try! rec := station_of src station_idx station_urn in
      try! recs := records src (S station_idx) rest in
      Ok (rec :: recs)
  end.

(** The dictionary of a station, spelled out from its extracted parts. *)
Definition station_dict (station_urn : string) (ds : DescribeSensor datetime)
    (lon lat : pyfloat) (webpage_url : option string)
    (operator publisher : sml.Contact.t) (starting_isostr ending_isostr : string)
    (quant_lst parameter_lst : list string) : OrderedDict :=
  [ ("station_urn", VStr station_urn);
    ("lon", VFloat lon);
    ("lat", VFloat lat);
    ("shortName", str_or_none (shortName ds));
    ("longName", str_or_none (longName ds));
    ("wmoID", str_or_none (get_ioos_def ds "wmoID" "identifier" ont));
    ("platformType", str_or_none (platformType ds));
    ("parentNetwork", str_or_none (get_ioos_def ds "parentNetwork" "classifier" ont));
    ("sponsor", str_or_none (get_ioos_def ds "sponsor" "classifier" ont));
    ("webpage_url", str_or_none webpage_url);
    ("operatorSector", str_or_none (get_ioos_def ds "operatorSector" "classifier" ont));
    ("operator_org", str_or_none (sml.Contact.organization operator));
    ("operator_country", str_or_none (sml.Contact.country operator));
    ("operator_url", str_or_none (sml.Contact.url operator));
    ("publisher", str_or_none (get_ioos_def ds "publisher" "classifier" ont));
    ("publisher_org", str_or_none (sml.Contact.organization publisher));
    ("publisher_url", str_or_none (sml.Contact.url publisher));
    ("starting", time_or_none (starting ds));
    ("ending", time_or_none (ending ds));
    ("starting_isostr", VStr starting_isostr);
    ("ending_isostr", VStr ending_isostr);
    ("parameter_uris", VStr (join "," quant_lst));
    ("parameters", VStr (join "," parameter_lst)) ].

End Harvest.

Arguments value : clear implicits.
Arguments OrderedDict : clear implicits.
Arguments DataFrame : clear implicits.
Arguments source : clear implicits.
Arguments locals : clear implicits.

(** ** A concrete environment

    One instance of [Imports], small enough to evaluate: decimal literals
    read exactly, time stamps kept as their ISO text, tags written with
    their prefix, the descriptive fields of a station read from attributes
    of its system element, and an endpoint that serves the documents of
    [Sample.store]. *)

Module Sample.

(** A decimal literal: [mantissa] times ten to the minus [scale]. *)
Record decimal : Type := { mantissa : Z; scale : nat }.

Fixpoint digits (s : string) (acc : N) : option N :=
  match s with
  | EmptyString => Some acc
  | String c s' =>
      let n := N_of_ascii c in
      if (N.leb 48 n && N.leb n 57)%bool
      then digits s' (10 * acc + (n - 48))%N
      else None
  end.

Definition unsigned_decimal (s : string) : option (N * nat) :=
  match split "." s with
  | [whole] =>
      match whole with
      | EmptyString => None
      | _ => n ← digits whole 0%N; Some (n, 0)
      end
  | [whole; frac] =>
      match whole +:+ frac with
      | EmptyString => None
      | all => n ← digits all 0%N; Some (n, String.length frac)
      end
  | _ => None
  end.

Definition read_decimal (s : string) : option decimal :=
  match s with
  | String "-" s' =>
      p ← unsigned_decimal s'; Some {| mantissa := - Z.of_N p.1; scale := p.2 |}
  | _ =>
      p ← unsigned_decimal s; Some {| mantissa := Z.of_N p.1; scale := p.2 |}
  end.

Definition encode (params : gmap string string) : string :=
  join "&" (map (fun kv => kv.1 +:+ "=" +:+ kv.2) (map_to_list params)).

Definition known_namespaces (prefixes : list string) : gmap string string :=
  list_to_map
    (List.filter (fun kv => contains kv.1 prefixes)
       [ ("sml", "http://www.opengis.net/sensorML/1.0.1");
         ("gml", "http://www.opengis.net/gml");
         ("xlink", "http://www.w3.org/1999/xlink");
         ("swe", "http://www.opengis.net/swe/1.0.1") ]).

Definition text_of (o : option element) : option string := o ≫= text.

Definition attr_of (o : option element) (key : string) : option string :=
  e ← o; attrib e !! key.

Definition contact (e : element) : sml.Contact.t :=
  {| sml.Contact.role := attrib e !! "xlink:role";
     sml.Contact.organization :=
       text_of (find e ["sml:ResponsibleParty"; "sml:organizationName"]);
     sml.Contact.country :=
       text_of (find e ["sml:ResponsibleParty"; "sml:contactInfo"; "sml:address";
                        "sml:country"]);
     sml.Contact.url :=
       attr_of (find e ["sml:ResponsibleParty"; "sml:contactInfo";
                        "sml:onlineResource"]) "xlink:href" |}.

Definition documentation (e : element) : sml.Documentation.t :=
  {| sml.Documentation.documents :=
       map (fun d => {| sml.Document.url :=
                          attr_of (find d ["sml:onlineResource"]) "xlink:href" |})
           (findall e ["sml:Document"]) |}.

Definition describe (root : element) : result (DescribeSensor string) :=
  match find root ["sml:member"; "sml:System"] with
  | None => Raise (External "no system")
  | Some sys =>
      Ok {| system_location := find sys ["sml:location"];
            shortName := attrib sys !! "shortName";
            longName := attrib sys !! "longName";
            platformType := attrib sys !! "platformType";
            starting := attrib sys !! "starting";
            ending := attrib sys !! "ending";
            get_ioos_def := fun ident _ _ => attrib sys !! ident |}
  end.

(** Elements without attributes or text, and leaves. *)
Definition node (t : string) (cs : list element) : element := Element t ∅ None cs.
Definition leaf (t s : string) : element := Element t ∅ (Some s) [].
Definition link (t key v : string) : element := Element t {[ key := v ]} None [].

Definition contact_member (role org country href : string) : element :=
  Element "sml:member" {[ "xlink:role" := role ]} None
    [ node "sml:ResponsibleParty"
        [ leaf "sml:organizationName" org;
          node "sml:contactInfo"
            [ node "sml:address" [ leaf "sml:country" country ];
              link "sml:onlineResource" "xlink:href" href ] ] ].

Definition document_member (hrefs : list string) : element :=
  node "sml:member"
    (map (fun h => node "sml:Document" [ link "sml:onlineResource" "xlink:href" h ])
         hrefs).

Definition quantity (definition : string) : element :=
  node "sml:output" [ link "swe:Quantity" "definition" definition ].

(** The system element of a station from its position text, document
    lists, contacts and output definitions. *)
Definition system (pos : string) (docs : list (list string))
    (contacts : list element) (definitions : list string) : element :=
  Element "sml:System"
    (list_to_map
       [ ("shortName", "NDBC 46050"); ("platformType", "buoy");
         ("sponsor", "NOAA");
         ("starting", "2010-01-01T00:00:00");
         ("ending", "2014-06-30T12:00:00") ])
    None
    [ node "sml:location" [ node "gml:Point" [ leaf "gml:pos" pos ] ];
      node "sml:documentation"
        (map (fun hs => node "sml:DocumentList" [ document_member hs ]) docs);
      node "sml:contact" [ node "sml:ContactList" contacts ];
      node "sml:outputs" [ node "sml:OutputList" (map quantity definitions) ] ].

(** The document around a system element. *)
Definition station_doc (sys : element) : element :=
  node "sml:SensorML" [ node "sml:member" [ sys ] ].

Definition operator_a : element :=
  contact_member "http://mmisw.org/ont/ioos/definition/operator"
    "NDBC" "USA" "http://www.ndbc.noaa.gov".
Definition operator_b : element :=
  contact_member "http://mmisw.org/ont/ioos/definition/operator"
    "NANOOS" "USA" "http://www.nanoos.org".
Definition publisher_a : element :=
  contact_member "http://mmisw.org/ont/ioos/definition/publisher"
    "NANOOS" "USA" "http://www.nanoos.org".

Definition definitions : list string :=
  [ "http://mmisw.org/ont/cf/parameter/sea_water_temperature";
    "http://mmisw.org/ont/cf/parameter/air_pressure" ].

(** A complete station: two document lists, the first of two documents. *)
Definition buoy_system : element :=
  system "34.5 -120.3"
    [ ["http://www.ndbc.noaa.gov/station_page.php?station=46050"; "http://a.example"];
      ["http://b.example"] ]
    [ operator_a; publisher_a ] definitions.
Definition buoy : element := station_doc buoy_system.

(** A station with neither documentation nor outputs. *)
Definition bare_system : element :=
  system "46.2 -124.1" [] [ operator_a; publisher_a ] [].
Definition bare : element := station_doc bare_system.

(** A station with two operators. *)
Definition shared_system : element :=
  system "47.0 -122.5" [] [ operator_a; publisher_a; operator_b ] definitions.
Definition shared : element := station_doc shared_system.

(** A station without a publisher. *)
Definition unpublished_system : element :=
  system "34.5 -120.3" [] [ operator_a ] definitions.
Definition unpublished : element := station_doc unpublished_system.

(** A station whose only document-list member holds no document. *)
Definition undocumented_system : element :=
  system "34.5 -120.3" [ [] ] [ operator_a; publisher_a ] definitions.
Definition undocumented : element := station_doc undocumented_system.

Definition sos_url : string := "http://sos.example/sos".
Definition buoy_urn : string := "urn:ioos:station:nanoos:buoy".
Definition bare_urn : string := "urn:ioos:station:nanoos:bare".
Definition shared_urn : string := "urn:ioos:station:nanoos:shared".

(** What the endpoint serves, by URN. *)
Definition store : gmap string element :=
  list_to_map
    [ (buoy_urn, buoy); (bare_urn, bare); (shared_urn, shared) ].

Definition served (urn : string) : result element :=
  match store !! urn with
  | Some root => Ok root
  | None => Raise (External "no such procedure")
  end.

Definition listing : list sos.offering :=
  [ {| sos.name := "urn:ioos:network:nanoos:all" |};
    {| sos.name := buoy_urn |};
    {| sos.name := bare_urn |} ].

#[export] Instance imports : Imports decimal string unit unit :=
  {| float := read_decimal;
     isoformat := fun d => d;
     urlencode := encode;
     Namespaces_get_namespaces := known_namespaces;
     nspath_eval := fun p _ => split "/" p;
     testXMLValue := text_of;
     Contact := contact;
     Documentation := documentation;
     ont := "http://mmisw.org/ont/ioos/definition/";
     IoosDescribeSensor := describe;
     SensorObservationService := fun _ => Ok tt;
     describe_sensor := fun _ urn _ _ => Ok urn;
     SensorML := served;
     IoosSweSos := fun _ => Ok tt;
     offerings := fun _ => listing;
     metadata := fun _ features _ => comprehension served features |}.

(** The dictionary built for a sample document, evaluated. *)
Definition built (station_urn : string) (root : element) : OrderedDict decimal string :=
  match build_station station_urn root with
  | Ok station => station
  | Raise _ => []
  end.

Definition buoy_record : OrderedDict decimal string := Eval vm_compute in built buoy_urn buoy.
Definition bare_record : OrderedDict decimal string := Eval vm_compute in built bare_urn bare.

Definition with_height : element :=
  station_doc (system "34.5 -120.3 12.0m" [] [ operator_a; publisher_a ] definitions).
Definition roleless_system : element :=
  system "34.5 -120.3" [] [ operator_a; publisher_a; node "sml:member" [] ] definitions.
Definition roleless : element := station_doc roleless_system.

(** A system element with the given attributes and outputs, and the
    position, contacts and (absent) documentation of [bare]. *)
Definition custom_system (attrs : list (string * string)) (outputs : list element)
    : element :=
  Element "sml:System" (list_to_map attrs) None
    [ node "sml:location" [ node "gml:Point" [ leaf "gml:pos" "46.2 -124.1" ] ];
      node "sml:documentation" [];
      node "sml:contact" [ node "sml:ContactList" [ operator_a; publisher_a ] ];
      node "sml:outputs" [ node "sml:OutputList" outputs ] ].

(** A station without a starting time. *)
Definition timeless : element :=
  station_doc
    (custom_system [ ("shortName", "NDBC 46050"); ("ending", "2014-06-30T12:00:00") ]
       (map quantity definitions)).

(** A station whose second quantity declares no definition. *)
Definition undefined_system : element :=
  custom_system
    [ ("starting", "2010-01-01T00:00:00"); ("ending", "2014-06-30T12:00:00") ]
    [ quantity "http://mmisw.org/ont/cf/parameter/air_pressure";
      node "sml:output" [ node "swe:Quantity" [] ] ].
Definition undefined : element := station_doc undefined_system.

(** A document whose first member holds no system and whose second does. *)
Definition two_members : element :=
  node "sml:SensorML" [ node "sml:member" []; node "sml:member" [ buoy_system ] ].

(** An endpoint of the sample types that lists network offerings only. *)
Definition networks_only : Imports decimal string unit unit :=
  {| float := read_decimal;
     isoformat := fun d => d;
     urlencode := encode;
     Namespaces_get_namespaces := known_namespaces;
     nspath_eval := fun p _ => split "/" p;
     testXMLValue := text_of;
     Contact := contact;
     Documentation := documentation;
     ont := "http://mmisw.org/ont/ioos/definition/";
     IoosDescribeSensor := describe;
     SensorObservationService := fun _ => Ok tt;
     describe_sensor := fun _ urn _ _ => Ok urn;
     SensorML := served;
     IoosSweSos := fun _ => Ok tt;
     offerings := fun _ => [ {| sos.name := "urn:ioos:network:nanoos:all" |};
                             {| sos.name := "urn:ioos:network:nanoos:coast" |} ];
     metadata := fun _ features _ => comprehension served features |}.

End Sample.

(** * Properties *)

(** ** Strings *)

Section StringFacts.

Variable sep : ascii.

Lemma split_nonempty (s : string) : split sep s <> [].
Proof.
  destruct s as [|c s]; simpl; [discriminate|].
  destruct (Ascii.eqb c sep); [discriminate|].
  destruct (split sep s); discriminate.
Qed.

Lemma split_without_sep (s : string) : occurs sep s = false -> split sep s = [s].
Proof.
  induction s as [|c s IH]; simpl; [reflexivity|].
  intros H. apply orb_false_iff in H as [Hc Hs].
  rewrite Hc, (IH Hs). reflexivity.
Qed.

Lemma split_with_sep (s : string) :
  occurs sep s = true -> exists f g fs, split sep s = f :: g :: fs.
Proof.
  induction s as [|c s IH]; simpl; [discriminate|].
  destruct (Ascii.eqb c sep) eqn:Hc; simpl.
  - intros _. destruct (split sep s) as [|g fs] eqn:E.
    + exfalso. exact (split_nonempty s E).
    + eauto.
  - intros Hs. destruct (IH Hs) as (f & g & fs & E). rewrite E. eauto.
Qed.

(** The text after the last separator of [s]; all of [s] without one. *)
Lemma split_last (s : string) : last (split sep s) = Some (after_last sep s).
Proof.
  induction s as [|c s IH]; simpl; [reflexivity|].
  destruct (occurs sep s) eqn:Hs.
  - destruct (split_with_sep s Hs) as (f & g & fs & E).
    rewrite E in IH |- *.
    destruct (Ascii.eqb c sep); exact IH.
  - rewrite (split_without_sep s Hs).
    destruct (Ascii.eqb c sep); reflexivity.
Qed.

Lemma after_last_whole (s : string) : occurs sep s = false -> after_last sep s = s.
Proof.
  destruct s as [|c s]; simpl; [reflexivity|].
  intros H. apply orb_false_iff in H as [Hc Hs]. rewrite Hs, Hc. reflexivity.
Qed.

Lemma occurs_app (s t : string) : occurs sep (s +:+ t) = occurs sep s || occurs sep t.
Proof.
  induction s as [|c s IH]; simpl; [reflexivity|].
  rewrite IH. apply orb_assoc.
Qed.

Lemma after_last_suffix (pre seg : string) :
  occurs sep seg = false -> after_last sep (pre +:+ String sep seg) = seg.
Proof.
  intros Hseg. induction pre as [|c pre IH]; simpl.
  - rewrite Hseg, Ascii.eqb_refl. reflexivity.
  - rewrite occurs_app. simpl. rewrite Ascii.eqb_refl, orb_true_r. exact IH.
Qed.

Lemma after_last_clean (s : string) : occurs sep (after_last sep s) = false.
Proof.
  induction s as [|c s IH]; simpl; [reflexivity|].
  destruct (occurs sep s) eqn:Hs; [exact IH|].
  destruct (Ascii.eqb c sep) eqn:Hc; [exact Hs|].
  simpl. rewrite Hc, Hs. reflexivity.
Qed.

(** Every string is a segment without separator, or a prefix, a separator
    and such a segment. *)
Lemma after_last_cases (s : string) :
  s = after_last sep s \/ exists pre, s = pre +:+ String sep (after_last sep s).
Proof.
  induction s as [|c s IH]; simpl; [left; reflexivity|].
  destruct (occurs sep s) eqn:Hs.
  - right. destruct IH as [IH|[pre IH]].
    + rewrite IH in Hs. rewrite after_last_clean in Hs. discriminate.
    + exists (String c pre). exact (f_equal (String c) IH).
  - destruct (Ascii.eqb c sep) eqn:Hc.
    + right. exists EmptyString. apply Ascii.eqb_eq in Hc. subst c. reflexivity.
    + left. reflexivity.
Qed.

Lemma item_last_split (s : string) : item_last (split sep s) = Ok (after_last sep s).
Proof. unfold item_last. rewrite split_last. reflexivity. Qed.

End StringFacts.

Lemma append_cons (c : ascii) (s t : string) : String c s +:+ t = String c (s +:+ t).
Proof. reflexivity. Qed.

Lemma append_empty_l (s : string) : EmptyString +:+ s = s.
Proof. reflexivity. Qed.

Lemma append_empty_r (s : string) : s +:+ EmptyString = s.
Proof. induction s as [|c s IH]; [reflexivity|]. rewrite append_cons, IH. reflexivity. Qed.

Lemma split_runs_token (t s : string) :
  has_space t = false ->
  split_runs (t +:+ s) = (t +:+ fst (split_runs s), snd (split_runs s)).
Proof.
  induction t as [|c t IH].
  - intros _. rewrite !append_empty_l. destruct (split_runs s); reflexivity.
  - intros H. simpl in H. apply orb_false_iff in H as [Hc Ht].
    rewrite !append_cons. simpl. rewrite (IH Ht), Hc. reflexivity.
Qed.

Lemma split_ws_blank (c : ascii) (s : string) :
  isspace c = true -> split_ws (String c s) = split_ws s.
Proof.
  intros Hc. unfold split_ws. simpl.
  destruct (split_runs s) as [run runs]. rewrite Hc. reflexivity.
Qed.

(** Blanks in front of a string do not show in its runs. *)
Lemma split_ws_blanks (b s : string) :
  all_space b = true -> split_ws (b +:+ s) = split_ws s.
Proof.
  induction b as [|c b IH]; [reflexivity|].
  intros H. simpl in H. apply andb_true_iff in H as [Hc Hb].
  rewrite append_cons, (split_ws_blank _ _ Hc). exact (IH Hb).
Qed.

(** A token in front of the end of the string or of a blank is the first
    run. *)
Lemma split_ws_token (t s : string) :
  t <> EmptyString -> has_space t = false ->
  match s with EmptyString => true | String c _ => isspace c end = true ->
  split_ws (t +:+ s) = t :: split_ws s.
Proof.
  intros Nt Ht Hs. unfold split_ws at 1. rewrite (split_runs_token t s Ht).
  destruct s as [|c s]; simpl.
  - rewrite append_empty_r. destruct t; [congruence|reflexivity].
  - unfold split_ws. simpl. destruct (split_runs s) as [run runs].
    rewrite Hs. simpl. rewrite append_empty_r. destruct t; [congruence|reflexivity].
Qed.

Lemma split_ws_only_blanks (b : string) : all_space b = true -> split_ws b = [].
Proof.
  intros H. rewrite <- (append_empty_r b). rewrite (split_ws_blanks b _ H). reflexivity.
Qed.

(** Two tokens with blanks between them, and any blanks around them, split
    into exactly the two. *)
Lemma split_ws_two (b0 t1 b1 t2 b2 : string) :
  t1 <> EmptyString -> t2 <> EmptyString ->
  has_space t1 = false -> has_space t2 = false ->
  all_space b0 = true -> all_space b1 = true -> b1 <> EmptyString ->
  all_space b2 = true ->
  split_ws (b0 +:+ t1 +:+ b1 +:+ t2 +:+ b2) = [t1; t2].
Proof.
  intros N1 N2 H1 H2 B0 B1 NB1 B2.
  rewrite (split_ws_blanks b0 _ B0).
  rewrite (split_ws_token t1 _ N1 H1).
  2:{ destruct b1 as [|c b1]; [congruence|].
      simpl in B1. apply andb_true_iff in B1 as [Hc _].
      rewrite append_cons. exact Hc. }
  rewrite (split_ws_blanks b1 _ B1).
  rewrite (split_ws_token t2 _ N2 H2).
  2:{ destruct b2 as [|c b2]; [reflexivity|].
      simpl in B2. apply andb_true_iff in B2 as [Hc _]. exact Hc. }
  rewrite (split_ws_only_blanks b2 B2). reflexivity.
Qed.

(** *** The string operations on literals *)

Example split_slash :
  split "/" "http://mmisw.org/ont/cf/parameter/sea_water_temperature"
  = ["http:"; ""; "mmisw.org"; "ont"; "cf"; "parameter"; "sea_water_temperature"].
Proof. reflexivity. Qed.

Example split_colon : split ":" "urn:ioos:network:nanoos:all"
  = ["urn"; "ioos"; "network"; "nanoos"; "all"].
Proof. reflexivity. Qed.

Example split_empty : split "/" "" = [""].
Proof. reflexivity. Qed.

Example split_ws_padded : split_ws "  34.5   -120.3 " = ["34.5"; "-120.3"].
Proof. reflexivity. Qed.

Example split_ws_one_token : split_ws "34.5" = ["34.5"].
Proof. reflexivity. Qed.

Example join_comma : join "," ["a"; "b"; "c"] = "a,b,c".
Proof. reflexivity. Qed.

Example join_nothing : join "," [] = "".
Proof. reflexivity. Qed.

(** ** Comprehensions *)

Section ComprehensionFacts.

Context {A B : Type}.

Lemma comprehension_total (g : A -> B) (l : list A) :
  comprehension (fun x => Ok (g x)) l = Ok (map g l).
Proof. induction l as [|x l IH]; simpl; [reflexivity|]. rewrite IH. reflexivity. Qed.

Lemma comprehension_ext (f g : A -> result B) (l : list A) :
  (forall x, f x = g x) -> comprehension f l = comprehension g l.
Proof. intros E. induction l as [|x l IH]; simpl; [reflexivity|]. rewrite E, IH. reflexivity. Qed.

(** A comprehension that returns has evaluated every element, in order. *)
Lemma comprehension_inv (f : A -> result B) (l : list A) (ys : list B) :
  comprehension f l = Ok ys -> Forall2 (fun x y => f x = Ok y) l ys.
Proof.
  revert ys. induction l as [|x l IH]; simpl; intros ys H.
  - injection H as <-. constructor.
  - destruct (f x) as [y|e] eqn:Ex; [|discriminate].
    destruct (comprehension f l) as [ys'|e]; [|discriminate].
    injection H as <-. constructor; auto.
Qed.

Lemma comprehension_ok (f : A -> result B) (l : list A) :
  Forall (fun x => is_ok (f x) = true) l -> is_ok (comprehension f l) = true.
Proof.
  induction 1 as [|x l Hx _ IH]; simpl; [reflexivity|].
  destruct (f x); [|discriminate].
  destruct (comprehension f l); [reflexivity|discriminate].
Qed.

End ComprehensionFacts.

(** ** One station *)

(** From [H : bind r k = Ok y]: [r] returned some [x], and [H] goes on
    with [k x]. *)
Ltac bind_inv H x :=
  match type of H with
  | bind ?r _ = Ok _ =>
      let E := fresh "E" x in
      destruct r as [x|] eqn:E; [simpl in H | discriminate H]
  end.

Section StationFacts.

Context {pyfloat datetime service collector : Type}.
Context `{imports : !Imports pyfloat datetime service collector}.

Lemma get_parameter_lst_total (quant_lst : list string) :
  get_parameter_lst quant_lst = Ok (map (after_last "/") quant_lst).
Proof.
  unfold get_parameter_lst.
  rewrite (comprehension_ext _ (fun s => Ok (after_last "/" s))).
  - apply comprehension_total.
  - intros x. apply item_last_split.
Qed.

(** Lines 84 to 118 return exactly when both tokens of the position read
    as numbers, both contacts are there and both times are set; the
    dictionary is then [station_dict]. *)
Lemma fill_station_inv station_urn ds pos webpage_url contacts_dct
    quant_lst parameter_lst station :
  fill_station station_urn ds pos webpage_url contacts_dct quant_lst parameter_lst
    = Ok station ->
  exists lon lat operator publisher t0 t1,
    float_token pos 1 = Ok lon /\ float_token pos 0 = Ok lat /\
    contacts_dct !! "operator" = Some operator /\
    contacts_dct !! "publisher" = Some publisher /\
    starting ds = Some t0 /\ ending ds = Some t1 /\
    station = station_dict station_urn ds lon lat webpage_url operator publisher
                (isoformat t0) (isoformat t1) quant_lst parameter_lst.
Proof.
  unfold fill_station, contact_for, isoformat_of.
  destruct (float_token pos 1) as [lon|]; [|discriminate].
  destruct (float_token pos 0) as [lat|]; [|discriminate].
  destruct (contacts_dct !! "operator") as [operator|]; [|discriminate].
  destruct (contacts_dct !! "publisher") as [publisher|]; [|discriminate].
  destruct (starting ds) as [t0|] eqn:E0; [|discriminate].
  destruct (ending ds) as [t1|] eqn:E1; [|discriminate].
  simpl. intros H. injection H as <-.
  exists lon, lat, operator, publisher, t0, t1.
  unfold station_dict. rewrite E0, E1. auto 10.
Qed.


(** A station dictionary is built exactly from a document whose every
    extraction step returns. *)
Lemma build_station_inv station_urn root station :
  build_station station_urn root = Ok station ->
  exists ds pos el webpage_url contacts_dct quant_lst,
    IoosDescribeSensor root = Ok ds /\ get_pos ds = Ok pos /\
    get_system_el root = Ok (Some el) /\
    get_webpage_url (Some el) = Ok webpage_url /\
    get_contacts_dct (Some el) = Ok contacts_dct /\
    get_quant_lst (Some el) = Ok quant_lst /\
    fill_station station_urn ds pos webpage_url contacts_dct quant_lst
      (map (after_last "/") quant_lst) = Ok station.
Proof.
  unfold build_station. intros H.
  bind_inv H ds. bind_inv H pos. bind_inv H system_el.
  destruct system_el as [el|]; [|discriminate H].
  bind_inv H webpage_url. bind_inv H contacts_dct. bind_inv H quant_lst.
  rewrite get_parameter_lst_total in H. simpl in H.
  exists ds, pos, el, webpage_url, contacts_dct, quant_lst. auto 10.
Qed.

Lemma build_station_eq station_urn root ds pos el webpage_url contacts_dct quant_lst :
  IoosDescribeSensor root = Ok ds -> get_pos ds = Ok pos ->
  get_system_el root = Ok el ->
  get_webpage_url el = Ok webpage_url ->
  get_contacts_dct el = Ok contacts_dct ->
  get_quant_lst el = Ok quant_lst ->
  build_station station_urn root
  = fill_station station_urn ds pos webpage_url contacts_dct quant_lst
      (map (after_last "/") quant_lst).
Proof.
  intros Hds Hpos Hel Hweb Hc Hq. unfold build_station.
  rewrite Hds. simpl. rewrite Hpos. simpl. rewrite Hel. simpl.
  rewrite Hweb. simpl. rewrite Hc. simpl. rewrite Hq. simpl.
  rewrite get_parameter_lst_total. reflexivity.
Qed.

(** The keys of a built dictionary and the cell under its first key. *)
Lemma build_station_keys station_urn root station :
  build_station station_urn root = Ok station ->
  keys station = station_columns /\
  getitem station "station_urn" = Some (VStr station_urn).
Proof.
  intros H. apply build_station_inv in H
    as (ds & pos & el & web & d & ql & _ & _ & _ & _ & _ & _ & H).
  apply fill_station_inv in H
    as (lon & lat & op & pub & t0 & t1 & _ & _ & _ & _ & _ & _ & ->).
  split; reflexivity.
Qed.

(** *** Contacts *)

Lemma role_key_ok (contact : sml.Contact.t) (role : string) :
  sml.Contact.role contact = Some role ->
  role_key contact = Ok (after_last "/" role).
Proof. intros E. unfold role_key. rewrite E. simpl. apply item_last_split. Qed.

Lemma role_key_none (contact : sml.Contact.t) :
  sml.Contact.role contact = None -> role_key contact = Raise AttributeError.
Proof. intros E. unfold role_key. rewrite E. reflexivity. Qed.

Lemma contacts_with_role_cons key c contacts :
  contacts_with_role key (c :: contacts)
  = if has_role key c then Contact c :: contacts_with_role key contacts
    else contacts_with_role key contacts.
Proof. unfold contacts_with_role. simpl. destruct (has_role key c); reflexivity. Qed.

(** After the loop over the contacts a key holds the last contact with
    that role key, or what the dictionary held before when there is none. *)
Lemma fill_contacts_lookup contacts :
  forall contacts_dct d key,
    fill_contacts contacts contacts_dct = Ok d ->
    d !! key = match last (contacts_with_role key contacts) with
               | Some c => Some c
               | None => contacts_dct !! key
               end.
Proof.
  induction contacts as [|c contacts IH]; intros m d key H; simpl in H.
  - injection H as <-. reflexivity.
  - destruct (role_key (Contact c)) as [r|] eqn:Er; [|discriminate].
    simpl in H. rewrite (IH _ _ key H), contacts_with_role_cons.
    unfold has_role. rewrite Er.
    destruct (String.eqb r key) eqn:Ek.
    + apply String.eqb_eq in Ek. subst r. rewrite last_cons.
      destruct (last (contacts_with_role key contacts)); [reflexivity|].
      apply lookup_insert_eq.
    + apply String.eqb_neq in Ek.
      destruct (last (contacts_with_role key contacts)); [reflexivity|].
      apply lookup_insert_ne. exact Ek.
Qed.

(** The loop over the contacts returns when every contact has a role. *)
Lemma fill_contacts_ok contacts :
  forallb has_role_key contacts = true ->
  forall contacts_dct, is_ok (fill_contacts contacts contacts_dct) = true.
Proof.
  induction contacts as [|c contacts IH]; simpl; intros H m; [reflexivity|].
  apply andb_true_iff in H as [Hc H]. unfold has_role_key in Hc.
  destruct (role_key (Contact c)); [simpl|discriminate].
  apply IH. exact H.
Qed.

Lemma last_contacts_with_role_none key contacts :
  existsb (has_role key) contacts = false ->
  last (contacts_with_role key contacts) = None.
Proof.
  induction contacts as [|c contacts IH]; simpl; [reflexivity|].
  intros H. apply orb_false_iff in H as [Hc H].
  rewrite contacts_with_role_cons, Hc. apply IH. exact H.
Qed.

Lemma last_contacts_with_role_some key contacts :
  existsb (has_role key) contacts = true ->
  is_Some (last (contacts_with_role key contacts)).
Proof.
  induction contacts as [|c contacts IH]; simpl; [discriminate|].
  intros H. rewrite contacts_with_role_cons.
  destruct (has_role key c); simpl in H.
  - rewrite last_cons. destruct (last (contacts_with_role key contacts)); eauto.
  - apply IH. exact H.
Qed.

(** What the dictionary of contacts holds under [key]. *)
Lemma get_contacts_dct_lookup el d key :
  get_contacts_dct (Some el) = Ok d ->
  d !! key = last (contacts_with_role key (contact_members el)).
Proof.
  unfold get_contacts_dct. simpl. intros H.
  rewrite (fill_contacts_lookup _ _ _ key H). fold (contact_members el).
  destruct (last (contacts_with_role key (contact_members el))); [reflexivity|].
  apply lookup_empty.
Qed.

End StationFacts.

(** ** The loop and the table *)

Section TableFacts.

Context {pyfloat datetime service collector : Type}.
Context `{imports : !Imports pyfloat datetime service collector}.

(** The loop appends the dictionaries of [records] and leaves the last of
    them bound to [station]. *)
Lemma loop_records src station_urns :
  forall l station_idx,
    loop src l station_idx station_urns
    = (try! recs := records src station_idx station_urns in
       Ok {| station_recs := station_recs l ++ recs;
             station := match last recs with
                        | Some rec => Some rec
                        | None => station l
                        end |}).
Proof.
  induction station_urns as [|u rest IH]; intros l idx; simpl.
  - rewrite app_nil_r. destruct l; reflexivity.
  - unfold loop_body. destruct (station_of src idx u) as [rec|]; simpl; [|reflexivity].
    rewrite IH. simpl.
    destruct (records src (S idx) rest) as [recs|]; simpl; [|reflexivity].
    rewrite <- app_assoc, last_cons. simpl.
    destruct (last recs); reflexivity.
Qed.

Lemma records_length src station_urns :
  forall station_idx recs,
    records src station_idx station_urns = Ok recs ->
    length recs = length station_urns.
Proof.
  induction station_urns as [|u rest IH]; intros idx recs H; simpl in H.
  - injection H as <-. reflexivity.
  - bind_inv H rec. bind_inv H recs'. injection H as <-.
    simpl. f_equal. eauto.
Qed.

(** The [i]-th dictionary is the one built for the [i]-th URN. *)
Lemma records_lookup src station_urns :
  forall station_idx recs i u,
    records src station_idx station_urns = Ok recs ->
    station_urns !! i = Some u ->
    exists rec, recs !! i = Some rec /\ station_of src (station_idx + i) u = Ok rec.
Proof.
  induction station_urns as [|u' rest IH]; intros idx recs i u H Hi; simpl in H.
  - discriminate Hi.
  - bind_inv H rec. bind_inv H recs'. injection H as <-.
    destruct i as [|i]; simpl in Hi.
    + injection Hi as ->. exists rec. rewrite Nat.add_0_r. auto.
    + destruct (IH _ _ _ _ Erecs' Hi) as (r & Hr & Hs).
      exists r. split; [exact Hr|]. rewrite <- Nat.add_succ_comm. exact Hs.
Qed.

(** Every station that builds gives a list of dictionaries. *)
Lemma records_ok src station_urns :
  forall station_idx,
    (forall i u, station_urns !! i = Some u ->
                 is_ok (station_of src (station_idx + i) u) = true) ->
    is_ok (records src station_idx station_urns) = true.
Proof.
  induction station_urns as [|u rest IH]; intros idx H; simpl; [reflexivity|].
  pose proof (H 0 u eq_refl) as H0. rewrite Nat.add_0_r in H0.
  destruct (station_of src idx u); [simpl|discriminate].
  assert (is_ok (records src (S idx) rest) = true) as Hr.
  { apply IH. intros i u' Hi. rewrite Nat.add_succ_comm. apply (H (S i)). exact Hi. }
  destruct (records src (S idx) rest); [reflexivity|discriminate].
Qed.

Lemma station_of_keys src station_idx station_urn rec :
  station_of src station_idx station_urn = Ok rec ->
  keys rec = station_columns /\ getitem rec "station_urn" = Some (VStr station_urn).
Proof.
  unfold station_of. intros H. bind_inv H root.
  exact (build_station_keys _ _ _ H).
Qed.

Lemma records_keys src station_urns :
  forall station_idx recs,
    records src station_idx station_urns = Ok recs ->
    Forall (fun rec => keys rec = station_columns) recs /\
    map (fun rec => default VNaN (getitem rec "station_urn")) recs
    = map VStr station_urns.
Proof.
  induction station_urns as [|u rest IH]; intros idx recs H; simpl in H.
  - injection H as <-. split; [constructor|reflexivity].
  - bind_inv H rec. bind_inv H recs'. injection H as <-.
    destruct (station_of_keys _ _ _ _ Erec) as [Hk Hu].
    destruct (IH _ _ Erecs') as [Hks Hus].
    split; [constructor; assumption|].
    simpl. rewrite Hu, Hus. reflexivity.
Qed.

(** What lines 49 to 125 return, from the dictionaries of the stations:
    the exception of the first station that fails, the unbound name when
    there is no station, and otherwise the table of all rows under the
    URNs as labels. *)
Lemma tabulate_spec src station_urns :
  tabulate src station_urns
  = match records src 0 station_urns with
    | Raise e => Raise e
    | Ok [] => Raise (UnboundLocalError "station")
    | Ok recs => Ok {| columns := station_columns;
                       index := map VStr station_urns;
                       data := map row_of recs |}
    end.
Proof.
  unfold tabulate. rewrite loop_records.
  destruct (records src 0 station_urns) as [recs|] eqn:E; [simpl|reflexivity].
  destruct (records_keys _ _ _ _ E) as [Hk Hu].
  destruct (last recs) as [rec|] eqn:El.
  - assert (keys rec = station_columns) as Hrec.
    { rewrite Forall_forall in Hk. apply Hk.
      apply last_Some in El as [l' ->]. set_solver. }
    unfold read_station. simpl. rewrite Hrec.
    unfold column, from_records. simpl.
    unfold set_index. simpl. rewrite !length_map, Nat.eqb_refl.
    rewrite map_map. simpl. fold (getitem rec).
    destruct recs as [|r recs]; [discriminate El|].
    f_equal. f_equal. exact Hu.
  - apply last_None in El. subst recs. reflexivity.
Qed.

End TableFacts.

(** ** The harvest as a whole *)

Section HarvestClaims.

Context {pyfloat datetime service collector : Type}.
Context `{imports : !Imports pyfloat datetime service collector}.

Lemma contains_elem_of (x : string) (l : list string) :
  contains x l = true <-> x ∈ l.
Proof.
  unfold contains. induction l as [|y l IH]; simpl.
  - split; [discriminate|]. intros H. inversion H.
  - rewrite orb_true_iff, IH, String.eqb_eq, elem_of_cons. reflexivity.
Qed.

Lemma default_station_urns_filter (offs : list sos.offering) :
  default_station_urns offs
  = map sos.name (filter (fun o => "network" ∉ split ":" (sos.name o)) offs).
Proof.
  unfold default_station_urns. f_equal.
  induction offs as [|o offs IH]; simpl; [reflexivity|].
  rewrite filter_cons, IH.
  destruct (contains "network" (split ":" (sos.name o))) eqn:E; simpl.
  - apply contains_elem_of in E. rewrite decide_False by (intros H; exact (H E)).
    reflexivity.
  - rewrite decide_True; [reflexivity|].
    intros H. apply contains_elem_of in H. congruence.
Qed.

(** C7, as the code has it: without a list from the caller the stations
    are the offerings, in the order of the capabilities document, none of
    whose colon-separated name parts is [network], whatever the position
    of the part. *)
Theorem default_station_set (sos_url : string) (station_urns : list string)
    (src : source service) :
  station_source sos_url None = Ok (station_urns, src) ->
  exists sos_collector,
    IoosSweSos sos_url = Ok sos_collector /\
    station_urns
    = map sos.name
        (filter (fun o => "network" ∉ split ":" (sos.name o)) (offerings sos_collector)) /\
    forall u, u ∈ station_urns <->
              exists o, o ∈ offerings sos_collector /\ sos.name o = u /\
                        "network" ∉ split ":" u.
Proof.
  unfold station_source. intros H. bind_inv H c. bind_inv H sml_lst.
  injection H as <- _. exists c. split; [reflexivity|].
  rewrite default_station_urns_filter. split; [reflexivity|].
  intros u. rewrite list_elem_of_fmap. split.
  - intros (o & -> & Ho). apply list_elem_of_filter in Ho as [Hn Ho]. eauto.
  - intros (o & Ho & <- & Hn). exists o. split; [reflexivity|].
    apply list_elem_of_filter. auto.
Qed.

(** C10: with no station to process the name [station] is still unbound
    when line 122 reads it, so the call raises and returns no table. *)
Theorem empty_station_list_raises (sos_url : string)
    (station_urns_sel : option (list string)) (src : source service) :
  station_source sos_url station_urns_sel = Ok ([], src) ->
  get_stations_df sos_url station_urns_sel = Raise (UnboundLocalError "station").
Proof.
  intros H. unfold get_stations_df. rewrite H. reflexivity.
Qed.

(** An empty list from the caller never gives a table. *)
Lemma empty_selection_fails (sos_url : string) :
  is_ok (get_stations_df sos_url (Some [])) = false.
Proof.
  unfold get_stations_df, station_source.
  destruct (SensorObservationService _); reflexivity.
Qed.

Lemma row_of_station_urn (rec : OrderedDict pyfloat datetime) (u : string) :
  keys rec = station_columns -> getitem rec "station_urn" = Some (VStr u) ->
  row_of rec !! 0 = Some (VStr u).
Proof. intros _ H. unfold row_of. simpl. rewrite H. reflexivity. Qed.

(** C1, as the code has it: two stations that build are assembled into a
    table of two rows labelled by their URNs, in processing order, whether
    the two URNs differ or not; nothing compares the URNs. *)
Theorem two_stations_assembled (src : source service) (u1 u2 : string)
    (rec1 rec2 : OrderedDict pyfloat datetime) :
  station_of src 0 u1 = Ok rec1 ->
  station_of src 1 u2 = Ok rec2 ->
  tabulate src [u1; u2]
  = Ok {| columns := station_columns;
          index := [VStr u1; VStr u2];
          data := [row_of rec1; row_of rec2] |} /\
  row_of rec1 !! 0 = Some (VStr u1) /\
  row_of rec2 !! 0 = Some (VStr u2).
Proof.
  intros H1 H2. rewrite tabulate_spec. simpl. rewrite H1, H2. simpl.
  split; [reflexivity|].
  destruct (station_of_keys _ _ _ _ H1), (station_of_keys _ _ _ _ H2).
  split; apply row_of_station_urn; assumption.
Qed.

Lemma getitem_keys (rec : OrderedDict pyfloat datetime) (c : string) :
  c ∈ keys rec -> is_Some (getitem rec c).
Proof.
  induction rec as [|[k v] rec IH]; simpl.
  - intros H. inversion H.
  - intros H. destruct (String.eqb k c) eqn:E; [eauto|].
    apply IH. apply String.eqb_neq in E.
    apply elem_of_cons in H as [H|H]; [congruence|exact H].
Qed.

(** C8: a harvest returns a table exactly when it has at least one station
    and every station builds; the columns of the table are then the keys of
    a station dictionary in insertion order, there is one row per station
    in processing order, every row holds a cell of the dictionary of its
    station for every column, and the label of a row is the URN of its
    station, the cell of its first column. *)
Theorem table_schema (sos_url : string) (station_urns_sel : option (list string))
    (station_urns : list string) (src : source service) :
  station_source sos_url station_urns_sel = Ok (station_urns, src) ->
  (is_ok (get_stations_df sos_url station_urns_sel) = true <->
     station_urns <> [] /\
     forall i u, station_urns !! i = Some u -> is_ok (station_of src i u) = true) /\
  forall df,
    get_stations_df sos_url station_urns_sel = Ok df ->
    columns df = station_columns /\
    length (data df) = length station_urns /\
    index df = map VStr station_urns /\
    forall i u, station_urns !! i = Some u ->
      exists rec row,
        station_of src i u = Ok rec /\
        data df !! i = Some row /\
        index df !! i = Some (VStr u) /\
        length row = length (columns df) /\
        row !! 0 = Some (VStr u) /\
        forall j c, columns df !! j = Some c ->
          exists v, getitem rec c = Some v /\ row !! j = Some v.
Proof.
  intros Hsrc. unfold get_stations_df. rewrite Hsrc. simpl.
  rewrite tabulate_spec. split.
  - split.
    + intros Hok.
      destruct (records src 0 station_urns) as [recs|] eqn:E; [|discriminate].
      pose proof (records_length _ _ _ _ E) as Hlen.
      destruct recs as [|rec0 recs0]; [discriminate|].
      split; [intros ->; discriminate Hlen|].
      intros i u Hi.
      destruct (records_lookup _ _ _ _ _ _ E Hi) as (rec & _ & Hst).
      simpl in Hst. rewrite Hst. reflexivity.
    + intros [Hne Hall].
      pose proof (records_ok src station_urns 0 Hall) as Hok.
      destruct (records src 0 station_urns) as [recs|] eqn:E; [|discriminate].
      pose proof (records_length _ _ _ _ E) as Hlen.
      destruct recs as [|rec0 recs0]; [|reflexivity].
      destruct station_urns; [congruence|discriminate].
  - intros df Hdf.
    destruct (records src 0 station_urns) as [recs|] eqn:E; [|discriminate].
    pose proof (records_length _ _ _ _ E) as Hlen.
    destruct recs as [|rec0 recs0] eqn:Erecs; [discriminate|].
    rewrite <- Erecs in *. clear Erecs rec0 recs0.
    injection Hdf as <-. simpl.
    split; [reflexivity|]. split; [rewrite length_map; exact Hlen|].
    split; [reflexivity|].
    intros i u Hi.
    destruct (records_lookup _ _ _ _ _ _ E Hi) as (rec & Hrec & Hst).
    destruct (station_of_keys _ _ _ _ Hst) as [Hk Hu].
    exists rec, (row_of rec). split; [exact Hst|].
    split; [rewrite list_lookup_fmap, Hrec; reflexivity|].
    split; [rewrite list_lookup_fmap, Hi; reflexivity|].
    split; [unfold row_of; apply length_map|].
    split; [apply row_of_station_urn; assumption|].
    intros j c Hj.
    destruct (getitem_keys rec c) as [v Hv].
    { rewrite Hk. apply list_elem_of_lookup. eauto. }
    exists v. split; [exact Hv|].
    unfold row_of. rewrite list_lookup_fmap, Hj. simpl. rewrite Hv. reflexivity.
Qed.

End HarvestClaims.

(** ** The fields of one station *)

Section StationClaims.

Context {pyfloat datetime service collector : Type}.
Context `{imports : !Imports pyfloat datetime service collector}.

(** C2: when the position text is two tokens with blanks between them (and
    any blanks around them) and both read as numbers, the first number is
    [lat] and the second is [lon], in the expressions of lines 86 and 87
    and in every dictionary built from a document with that position. *)
Theorem position_lat_then_lon (b0 t1 b1 t2 b2 : string) (lat lon : pyfloat) :
  t1 <> EmptyString -> t2 <> EmptyString ->
  has_space t1 = false -> has_space t2 = false ->
  all_space b0 = true -> all_space b1 = true -> b1 <> EmptyString ->
  all_space b2 = true ->
  float t1 = Some lat -> float t2 = Some lon ->
  let pos := Some (b0 +:+ t1 +:+ b1 +:+ t2 +:+ b2) in
  float_token pos 0 = Ok lat /\
  float_token pos 1 = Ok lon /\
  forall station_urn root ds station,
    IoosDescribeSensor root = Ok ds -> get_pos ds = Ok pos ->
    build_station station_urn root = Ok station ->
    getitem station "lat" = Some (VFloat lat) /\
    getitem station "lon" = Some (VFloat lon).
Proof.
  intros N1 N2 H1 H2 B0 B1 NB1 B2 F1 F2 pos.
  assert (float_token pos 0 = Ok lat) as L0.
  { unfold pos, float_token. simpl.
    rewrite (split_ws_two b0 t1 b1 t2 b2) by assumption.
    simpl. rewrite F1. reflexivity. }
  assert (float_token pos 1 = Ok lon) as L1.
  { unfold pos, float_token. simpl.
    rewrite (split_ws_two b0 t1 b1 t2 b2) by assumption.
    simpl. rewrite F2. reflexivity. }
  split; [exact L0|]. split; [exact L1|].
  intros urn root ds station Hds Hpos H.
  apply build_station_inv in H
    as (ds' & pos' & el & web & d & ql & Hds' & Hpos' & _ & _ & _ & _ & H).
  rewrite Hds in Hds'. injection Hds' as <-.
  rewrite Hpos in Hpos'. injection Hpos' as <-.
  apply fill_station_inv in H
    as (lon' & lat' & op & pub & t0 & t1' & Hlon & Hlat & _ & _ & _ & _ & ->).
  rewrite L1 in Hlon. injection Hlon as <-.
  rewrite L0 in Hlat. injection Hlat as <-.
  split; reflexivity.
Qed.

(** C3: when every contact member has a role, the dictionary of contacts
    is built; each key holds one contact, the last member in document
    order whose role key it is, so that a later contact with the same
    role replaces an earlier one; a key no member has is absent. *)
Theorem contacts_last_wins (el : element) :
  forallb has_role_key (contact_members el) = true ->
  exists contacts_dct,
    get_contacts_dct (Some el) = Ok contacts_dct /\
    (forall key,
       contacts_dct !! key = last (contacts_with_role key (contact_members el))) /\
    (forall (key : string) (before : list element) (c : element) (after : list element),
       contact_members el = (before ++ c :: after)%list ->
       has_role key c = true ->
       existsb (has_role key) after = false ->
       contacts_dct !! key = Some (Contact c)) /\
    (forall key,
       existsb (has_role key) (contact_members el) = false ->
       contacts_dct !! key = None).
Proof.
  intros Hall.
  pose proof (fill_contacts_ok _ Hall ∅) as Hok.
  destruct (get_contacts_dct (Some el)) as [d|] eqn:E.
  2:{ unfold get_contacts_dct in E. simpl in E. fold (contact_members el) in E.
      rewrite E in Hok. discriminate. }
  exists d. split; [reflexivity|].
  split; [intros key; exact (get_contacts_dct_lookup el d key E)|].
  split.
  - intros key before c after Hsplit Hc Hafter.
    rewrite (get_contacts_dct_lookup el d key E), Hsplit.
    unfold contacts_with_role. rewrite List.filter_app. simpl. rewrite Hc.
    rewrite map_app. simpl.
    pose proof (last_contacts_with_role_none key after Hafter) as Hl.
    unfold contacts_with_role in Hl.
    rewrite last_app, last_cons, Hl. reflexivity.
  - intros key Hnone.
    rewrite (get_contacts_dct_lookup el d key E).
    apply last_contacts_with_role_none. exact Hnone.
Qed.

(** C4: a document none of whose contacts has the role key [operator],
    or none the key [publisher], never gives a dictionary; once position,
    documentation, contacts and quantities have been read, the exception
    is the [KeyError] of the first of the two keys that is missing. *)
Theorem missing_role_is_fatal (station_urn : string) (root el : element) :
  get_system_el root = Ok (Some el) ->
  existsb (has_role "operator") (contact_members el) = false \/
  existsb (has_role "publisher") (contact_members el) = false ->
  is_ok (build_station station_urn root) = false /\
  forall ds pos webpage_url contacts_dct quant_lst lon lat,
    IoosDescribeSensor root = Ok ds -> get_pos ds = Ok pos ->
    get_webpage_url (Some el) = Ok webpage_url ->
    get_contacts_dct (Some el) = Ok contacts_dct ->
    get_quant_lst (Some el) = Ok quant_lst ->
    float_token pos 1 = Ok lon -> float_token pos 0 = Ok lat ->
    build_station station_urn root
    = Raise (KeyError (if existsb (has_role "operator") (contact_members el)
                       then "publisher" else "operator")).
Proof.
  intros Hsys Hmiss. split.
  - destruct (build_station station_urn root) as [station|] eqn:E; [|reflexivity].
    exfalso. apply build_station_inv in E
      as (ds & pos & el' & web & d & ql & _ & _ & Hsys' & _ & Hd & _ & H).
    rewrite Hsys in Hsys'. injection Hsys' as <-.
    apply fill_station_inv in H
      as (lon & lat & op & pub & t0 & t1 & _ & _ & Hop & Hpub & _).
    rewrite (get_contacts_dct_lookup el d _ Hd) in Hop.
    rewrite (get_contacts_dct_lookup el d _ Hd) in Hpub.
    destruct Hmiss as [Hm|Hm];
      apply last_contacts_with_role_none in Hm; congruence.
  - intros ds pos web d ql lon lat Hds Hpos Hweb Hd Hq Hlon Hlat.
    rewrite (build_station_eq _ _ ds pos (Some el) web d ql) by assumption.
    unfold fill_station, contact_for. rewrite Hlon, Hlat. simpl.
    rewrite !(get_contacts_dct_lookup el d _ Hd).
    destruct (existsb (has_role "operator") (contact_members el)) eqn:Eop.
    + destruct (last_contacts_with_role_some _ _ Eop) as [op ->]. simpl.
      destruct Hmiss as [Hm|Hm]; [discriminate|].
      rewrite (last_contacts_with_role_none _ _ Hm). reflexivity.
    + rewrite (last_contacts_with_role_none _ _ Eop). reflexivity.
Qed.

(** Without a document-list member the documentation step returns [None]
    and raises nothing. *)
Lemma get_webpage_url_none (el : element) :
  document_members el = [] -> get_webpage_url (Some el) = Ok None.
Proof. unfold get_webpage_url, document_members. simpl. intros ->. reflexivity. Qed.

(** C5: in a built dictionary [webpage_url] is [None] when the system
    element has no document-list member, the documentation step having
    returned [None] without raising; with one member or more it is the
    URL of the first document of the first member, whatever the other
    members and the other documents are. *)
Theorem webpage_url_first_document (station_urn : string) (root el : element)
    (station : OrderedDict pyfloat datetime) :
  get_system_el root = Ok (Some el) ->
  build_station station_urn root = Ok station ->
  match document_members el with
  | [] =>
      get_webpage_url (Some el) = Ok None /\
      getitem station "webpage_url" = Some VNone
  | first :: _ =>
      exists d ds,
        sml.Documentation.documents (Documentation first) = d :: ds /\
        get_webpage_url (Some el) = Ok (sml.Document.url d) /\
        getitem station "webpage_url" = Some (str_or_none (sml.Document.url d))
  end.
Proof.
  intros Hsys H. apply build_station_inv in H
    as (ds & pos & el' & web & d & ql & _ & _ & Hsys' & Hweb & _ & _ & H).
  rewrite Hsys in Hsys'. injection Hsys' as <-.
  apply fill_station_inv in H
    as (lon & lat & op & pub & t0 & t1 & _ & _ & _ & _ & _ & _ & ->).
  destruct (document_members el) as [|first rest] eqn:Edocs.
  - rewrite (get_webpage_url_none el Edocs) in Hweb |- *.
    injection Hweb as <-. split; reflexivity.
  - unfold get_webpage_url in Hweb |- *. simpl in Hweb |- *.
    fold (document_members el) in Hweb |- *. rewrite Edocs in Hweb |- *.
    destruct (sml.Documentation.documents (Documentation first)) as [|d0 ds0];
      [discriminate Hweb|].
    simpl in Hweb |- *. injection Hweb as <-.
    exists d0, ds0. repeat split; reflexivity.
Qed.

Lemma quant_lst_definitions (qs : list element) :
  forallb has_definition qs = true ->
  comprehension (fun q => getattr q "definition") qs
  = Ok (map (fun q => default EmptyString (attrib q !! "definition")) qs).
Proof.
  induction qs as [|q qs IH]; simpl; [reflexivity|].
  intros H. apply andb_true_iff in H as [Hq H].
  unfold getattr, has_definition in *.
  destruct (attrib q !! "definition"); [|discriminate].
  rewrite (IH H). reflexivity.
Qed.

(** C6: when every quantity of the output list declares a definition, the
    list of URIs and the list of short names are built, each as long as
    the list of quantities; at every position the URI is the definition
    of the quantity at that position in document order and the short name
    is the text after the last slash of that URI (all of it without a
    slash); the dictionary holds the two lists joined by commas. *)
Theorem parameters_aligned (el : element) :
  forallb has_definition (quantities el) = true ->
  exists quant_lst parameter_lst,
    get_quant_lst (Some el) = Ok quant_lst /\
    get_parameter_lst quant_lst = Ok parameter_lst /\
    length quant_lst = length (quantities el) /\
    length parameter_lst = length quant_lst /\
    (forall i q, quantities el !! i = Some q ->
       exists uri short,
         attrib q !! "definition" = Some uri /\
         quant_lst !! i = Some uri /\
         parameter_lst !! i = Some short /\
         occurs "/" short = false /\
         (uri = short \/ exists pre, uri = pre +:+ String "/" short)) /\
    (forall station_urn root station,
       get_system_el root = Ok (Some el) ->
       build_station station_urn root = Ok station ->
       getitem station "parameter_uris" = Some (VStr (join "," quant_lst)) /\
       getitem station "parameters" = Some (VStr (join "," parameter_lst))).
Proof.
  intros Hall.
  pose proof (quant_lst_definitions _ Hall) as Hq.
  set (quant_lst := map (fun q => default EmptyString (attrib q !! "definition"))
                        (quantities el)) in *.
  exists quant_lst, (map (after_last "/") quant_lst).
  split; [exact Hq|]. split; [apply get_parameter_lst_total|].
  split; [apply length_map|]. split; [apply length_map|]. split.
  - intros i q Hi.
    assert (has_definition q = true) as Hdef.
    { rewrite forallb_forall in Hall. apply Hall.
      apply list_elem_of_In, list_elem_of_lookup. eauto. }
    unfold has_definition in Hdef.
    destruct (attrib q !! "definition") as [uri|] eqn:Euri; [|discriminate].
    exists uri, (after_last "/" uri). split; [reflexivity|].
    assert (quant_lst !! i = Some uri) as Hu.
    { unfold quant_lst. rewrite list_lookup_fmap, Hi. simpl. rewrite Euri. reflexivity. }
    split; [exact Hu|].
    split; [rewrite list_lookup_fmap, Hu; reflexivity|].
    split; [apply after_last_clean|apply after_last_cases].
  - intros urn root station Hsys H.
    apply build_station_inv in H
      as (ds & pos & el' & web & d & ql & _ & _ & Hsys' & _ & _ & Hq' & H).
    rewrite Hsys in Hsys'. injection Hsys' as <-.
    unfold get_quant_lst in Hq'. simpl in Hq'. fold (quantities el) in Hq'.
    rewrite Hq in Hq'. injection Hq' as <-.
    apply fill_station_inv in H
      as (lon & lat & op & pub & t0 & t1 & _ & _ & _ & _ & _ & _ & ->).
    split; reflexivity.
Qed.

(** C9: two runs of lines 58 to 118 on the same URN and the same document
    give the same result, a dictionary or an exception; and an iteration
    of the loop on that document appends and binds that result whatever
    the earlier iterations left behind. *)
Theorem parsing_is_deterministic (station_urn : string) (root : element)
    (r1 r2 : result (OrderedDict pyfloat datetime)) (src : source service)
    (station_idx : nat)
    (l1 l2 : locals pyfloat datetime) :
  build_station station_urn root = r1 ->
  build_station station_urn root = r2 ->
  fetch src station_idx station_urn = Ok root ->
  r1 = r2 /\
  loop_body src l1 station_idx station_urn
  = (try! rec := r1 in
     Ok {| station_recs := station_recs l1 ++ [rec]; station := Some rec |}) /\
  loop_body src l2 station_idx station_urn
  = (try! rec := r2 in
     Ok {| station_recs := station_recs l2 ++ [rec]; station := Some rec |}).
Proof.
  intros H1 H2 Hf. subst r1 r2. split; [reflexivity|].
  unfold loop_body, station_of. rewrite Hf.
  split; reflexivity.
Qed.

End StationClaims.

(** ** The claims on the sample endpoint *)

Section OnTheSample.

Import Sample.
#[local] Existing Instance Sample.imports.

(** C1 as stated fails: the same URN twice is assembled into two rows
    under the same label, and nothing is raised. *)
Lemma duplicate_urns_are_kept :
  exists df,
    get_stations_df sos_url (Some [buoy_urn; buoy_urn]) = Ok df /\
    index df = [VStr buoy_urn; VStr buoy_urn] /\
    data df = [row_of buoy_record; row_of buoy_record].
Proof.
  exists {| columns := station_columns;
            index := [VStr buoy_urn; VStr buoy_urn];
            data := [row_of buoy_record; row_of buoy_record] |}.
  split; [vm_compute; reflexivity|]. split; reflexivity.
Qed.

Lemma two_stations_assembled_witness :
  tabulate (Selected tt) [buoy_urn; bare_urn]
  = Ok {| columns := station_columns;
          index := [VStr buoy_urn; VStr bare_urn];
          data := [row_of buoy_record; row_of bare_record] |}.
Proof.
  apply (two_stations_assembled (Selected tt) buoy_urn bare_urn
           buoy_record bare_record); vm_compute; reflexivity.
Defined.

Lemma position_lat_then_lon_witness :
  getitem buoy_record "lat" = Some (VFloat {| mantissa := 345; scale := 1 |}) /\
  getitem buoy_record "lon" = Some (VFloat {| mantissa := -1203; scale := 1 |}).
Proof.
  destruct (position_lat_then_lon "" "34.5" " " "-120.3" ""
              {| mantissa := 345; scale := 1 |} {| mantissa := -1203; scale := 1 |})
    as (_ & _ & H); try discriminate; try reflexivity.
  eapply (H buoy_urn buoy); vm_compute; reflexivity.
Defined.

Lemma contacts_last_wins_witness :
  exists contacts_dct,
    get_contacts_dct (Some shared_system) = Ok contacts_dct /\
    contacts_dct !! "operator" = Some (contact operator_b).
Proof.
  destruct (contacts_last_wins shared_system) as (d & Hd & _ & Hlast & _);
    [vm_compute; reflexivity|].
  exists d. split; [exact Hd|].
  apply (Hlast "operator" [operator_a; publisher_a] operator_b []);
    vm_compute; reflexivity.
Defined.

Lemma missing_role_is_fatal_witness :
  is_ok (build_station buoy_urn unpublished) = false.
Proof.
  apply (missing_role_is_fatal buoy_urn unpublished unpublished_system).
  - vm_compute; reflexivity.
  - right. vm_compute; reflexivity.
Defined.

Example unpublished_raises_key_error :
  build_station buoy_urn unpublished = Raise (KeyError "publisher").
Proof. vm_compute; reflexivity. Qed.

(** A first member without a document stops the station at line 69. *)
Example undocumented_raises_index_error :
  length (document_members undocumented_system) = 1 /\
  build_station buoy_urn undocumented = Raise IndexError.
Proof. split; vm_compute; reflexivity. Qed.

(** The later operator of [shared] is the one in its dictionary. *)
Example shared_operator :
  getitem (built shared_urn shared) "operator_org" = Some (VStr "NANOOS").
Proof. vm_compute; reflexivity. Qed.

Lemma webpage_url_first_document_witness :
  getitem buoy_record "webpage_url"
  = Some (VStr "http://www.ndbc.noaa.gov/station_page.php?station=46050") /\
  getitem bare_record "webpage_url" = Some VNone.
Proof.
  split.
  - assert (get_system_el buoy = Ok (Some buoy_system)) as H1
      by (vm_compute; reflexivity).
    assert (build_station buoy_urn buoy = Ok buoy_record) as H2
      by (vm_compute; reflexivity).
    pose proof (webpage_url_first_document _ _ _ _ H1 H2) as H.
    vm_compute in H. destruct H as (d & ds & Hd & _ & H).
    injection Hd as <- _. exact H.
  - assert (get_system_el bare = Ok (Some bare_system)) as H1
      by (vm_compute; reflexivity).
    assert (build_station bare_urn bare = Ok bare_record) as H2
      by (vm_compute; reflexivity).
    pose proof (webpage_url_first_document _ _ _ _ H1 H2) as H.
    vm_compute in H. destruct H as [_ H]. exact H.
Defined.

Lemma parameters_aligned_witness :
  exists quant_lst parameter_lst,
    get_quant_lst (Some buoy_system) = Ok quant_lst /\
    get_parameter_lst quant_lst = Ok parameter_lst /\
    length parameter_lst = length quant_lst.
Proof.
  destruct (parameters_aligned buoy_system) as (ql & pl & Hq & Hp & _ & Hl & _);
    [vm_compute; reflexivity|].
  exists ql, pl. auto.
Defined.

Lemma default_station_set_witness :
  (exists o, o ∈ listing /\ sos.name o = buoy_urn /\ "network" ∉ split ":" buoy_urn) /\
  ~ "urn:ioos:network:nanoos:all" ∈ [buoy_urn; bare_urn].
Proof.
  destruct (default_station_set sos_url [buoy_urn; bare_urn] (Discovered [buoy; bare]))
    as (c & _ & _ & H); [vm_compute; reflexivity|].
  split.
  - apply H. apply list_elem_of_here.
  - rewrite H. intros (o & _ & Ho & Hn). apply Hn.
    apply contains_elem_of. reflexivity.
Defined.

(** C7 as stated fails, whichever position is the fixed one.  The name
    [a:network] has [a] at position 0 and the one-part name [network] has
    nothing at any later position, so a test of one position keeps one of
    the two, and the code drops both.  With the position of the offering
    kind in an IOOS URN, position 2, a station whose authority is called
    [network] is kept by the positional reading and dropped by the code. *)
Lemma network_filter_is_not_positional :
  default_station_urns [ {| sos.name := "a:network" |}; {| sos.name := "network" |} ] = [] /\
  split ":" "a:network" !! 0 = Some "a" /\
  split ":" "network" = ["network"] /\
  fixed_position_urns 0 [ {| sos.name := "a:network" |} ] = ["a:network"] /\
  fixed_position_urns 2 [ {| sos.name := "urn:ioos:station:network:north" |} ]
  = ["urn:ioos:station:network:north"] /\
  default_station_urns [ {| sos.name := "urn:ioos:station:network:north" |} ] = [].
Proof. repeat split. Qed.

Lemma table_schema_witness :
  exists df,
    get_stations_df sos_url None = Ok df /\
    columns df = station_columns /\
    index df = [VStr buoy_urn; VStr bare_urn].
Proof.
  destruct (table_schema sos_url None [buoy_urn; bare_urn] (Discovered [buoy; bare]))
    as [Hok Hshape]; [vm_compute; reflexivity|].
  assert (is_ok (get_stations_df sos_url None) = true) as Hdf.
  { apply Hok. split; [discriminate|].
    intros [|[|i]] u Hu; try discriminate Hu; injection Hu as <-;
      vm_compute; reflexivity. }
  destruct (get_stations_df sos_url None) as [df|]; [|discriminate Hdf].
  exists df. destruct (Hshape df eq_refl) as (Hc & _ & Hi & _). auto.
Defined.

Lemma parsing_is_deterministic_witness :
  Ok buoy_record = build_station buoy_urn buoy.
Proof.
  refine (proj1 (parsing_is_deterministic buoy_urn buoy (Ok buoy_record)
                   (build_station buoy_urn buoy) (Selected tt) 0
                   {| station_recs := []; station := None |}
                   {| station_recs := [bare_record]; station := Some bare_record |}
                   _ _ _)).
  - vm_compute; reflexivity.
  - reflexivity.
  - vm_compute; reflexivity.
Defined.

Lemma empty_station_list_raises_witness :
  get_stations_df sos_url (Some []) = Raise (UnboundLocalError "station").
Proof.
  apply (empty_station_list_raises sos_url (Some []) (Selected tt)).
  vm_compute; reflexivity.
Defined.

End OnTheSample.

(** * Further properties of the module *)

(** ** Segments of a URI *)

(** The text after the last separator is [key] exactly when [key] has no
    separator and the string is [key] or ends in the separator and [key]. *)
Lemma after_last_iff (sep : ascii) (s key : string) :
  after_last sep s = key <->
  occurs sep key = false /\ (s = key \/ exists pre, s = pre +:+ String sep key).
Proof.
  split.
  - intros <-. split; [apply after_last_clean|apply after_last_cases].
  - intros [Hkey [->|[pre ->]]].
    + apply after_last_whole. exact Hkey.
    + apply after_last_suffix. exact Hkey.
Qed.

Lemma occurs_after_last (c sep : ascii) (s : string) :
  occurs c (after_last sep s) = true -> occurs c s = true.
Proof.
  induction s as [|c' s IH]; simpl; [discriminate|].
  destruct (occurs sep s).
  - intros H. rewrite (IH H). apply orb_true_r.
  - destruct (Ascii.eqb c' sep); simpl.
    + intros ->. apply orb_true_r.
    + intros H. exact H.
Qed.

(** Joining fields that hold no comma and splitting at the commas gives
    the fields back, when there is at least one field. *)
Lemma split_join (c : ascii) (l : list string) :
  l <> [] -> forallb (fun s => negb (occurs c s)) l = true ->
  split c (join (String c EmptyString) l) = l.
Proof.
  induction l as [|x l IH]; [congruence|].
  intros _ H. simpl in H. apply andb_true_iff in H as [Hx Hl].
  apply negb_true_iff in Hx.
  destruct l as [|y l].
  - simpl. apply split_without_sep. exact Hx.
  - change (join (String c EmptyString) (x :: y :: l))
      with (x +:+ String c EmptyString +:+ join (String c EmptyString) (y :: l)).
    assert (forall t, split c (x +:+ String c t) = x :: split c t) as Hsplit.
    { intros t. clear IH. induction x as [|a x IHx].
      - rewrite append_empty_l. simpl. rewrite Ascii.eqb_refl. reflexivity.
      - simpl in Hx. apply orb_false_iff in Hx as [Ha Hx].
        rewrite append_cons. simpl. rewrite Ha, (IHx Hx). reflexivity. }
    rewrite append_cons, append_empty_l, Hsplit.
    rewrite IH by (congruence || exact Hl). reflexivity.
Qed.

Section StationExtras.

Context {pyfloat datetime service collector : Type}.
Context `{imports : !Imports pyfloat datetime service collector}.

(** X1: the namespace table has [ism] bound to the fixed URN whatever the
    library table held for it, and every other prefix as the library gave
    it; a prefix the library does not know, other than [ism], is unknown. *)
Theorem namespaces_ism_fixed :
  namespaces !! "ism" = Some "urn:us:gov:ic:ism:v2" /\
  (forall prefix, prefix <> "ism" ->
     namespaces !! prefix
     = Namespaces_get_namespaces ["sml"; "gml"; "xlink"; "swe"] !! prefix) /\
  dom namespaces
  = {["ism"]} ∪ dom (Namespaces_get_namespaces ["sml"; "gml"; "xlink"; "swe"]).
Proof.
  unfold namespaces, get_namespaces. split; [apply lookup_insert_eq|].
  split; [|apply dom_insert_L].
  intros prefix Hne. apply lookup_insert_ne. congruence.
Qed.

(** X2: a contact member counts for the role [key] exactly when it has a
    role whose text after the last slash is [key]: the role is [key]
    itself or ends in a slash and [key], and [key] holds no slash.  A role
    that ends in a slash counts for the empty key only. *)
Theorem has_role_iff (key : string) (c : element) :
  has_role key c = true <->
  exists role,
    sml.Contact.role (Contact c) = Some role /\
    occurs "/" key = false /\
    (role = key \/ exists pre, role = pre +:+ String "/" key).
Proof.
  unfold has_role. destruct (sml.Contact.role (Contact c)) as [role|] eqn:E.
  - rewrite (role_key_ok _ _ E), String.eqb_eq, after_last_iff. split.
    + intros H. exists role. split; [reflexivity|exact H].
    + intros (role' & Hr & H). injection Hr as <-. exact H.
  - rewrite (role_key_none _ E). split; [discriminate|].
    intros (role & Hr & _). discriminate Hr.
Qed.

Lemma fill_station_urn u1 u2 ds pos webpage_url contacts_dct quant_lst parameter_lst :
  fill_station u2 ds pos webpage_url contacts_dct quant_lst parameter_lst
  = (try! station :=
       fill_station u1 ds pos webpage_url contacts_dct quant_lst parameter_lst in
     Ok (setitem station "station_urn" (VStr u2))).
Proof.
  unfold fill_station, contact_for, isoformat_of.
  destruct (float_token pos 1); [simpl|reflexivity].
  destruct (float_token pos 0); [simpl|reflexivity].
  destruct (contacts_dct !! "operator"); [simpl|reflexivity].
  destruct (contacts_dct !! "publisher"); [simpl|reflexivity].
  destruct (starting ds); [simpl|reflexivity].
  destruct (ending ds); reflexivity.
Qed.

(** X3: the URN plays no part in reading a document.  Whether a document
    builds, and with which exception it fails, does not depend on the URN,
    and the dictionary built under another URN is the same dictionary with
    the other URN under [station_urn]. *)
Theorem urn_is_only_a_label (u1 u2 : string) (root : element) :
  build_station u2 root
  = (try! station := build_station u1 root in
     Ok (setitem station "station_urn" (VStr u2))).
Proof.
  unfold build_station.
  destruct (IoosDescribeSensor root) as [ds|]; [simpl|reflexivity].
  destruct (get_pos ds) as [pos|]; [simpl|reflexivity].
  destruct (get_system_el root) as [el|]; [simpl|reflexivity].
  destruct (get_webpage_url el) as [web|]; [simpl|reflexivity].
  destruct (get_contacts_dct el) as [d|]; [simpl|reflexivity].
  destruct (get_quant_lst el) as [ql|]; [simpl|reflexivity].
  destruct (get_parameter_lst ql) as [pl|]; [simpl|reflexivity].
  apply fill_station_urn.
Qed.




(** X5: only the first two tokens of the position are read.  In a built
    dictionary [lat] is the number the first token reads as and [lon] the
    number the second reads as, whatever tokens follow, numbers or not. *)
Theorem later_position_tokens_ignored (station_urn : string) (root : element)
    (ds : DescribeSensor datetime) (p t1 t2 : string) (rest : list string)
    (station : OrderedDict pyfloat datetime) :
  IoosDescribeSensor root = Ok ds -> get_pos ds = Ok (Some p) ->
  split_ws p = t1 :: t2 :: rest ->
  build_station station_urn root = Ok station ->
  exists lat lon,
    float t1 = Some lat /\ float t2 = Some lon /\
    getitem station "lat" = Some (VFloat lat) /\
    getitem station "lon" = Some (VFloat lon).
Proof.
  intros Hds Hpos Hsplit H.
  apply build_station_inv in H
    as (ds' & pos' & el & web & d & ql & Hds' & Hpos' & _ & _ & _ & _ & H).
  rewrite Hds in Hds'. injection Hds' as <-.
  rewrite Hpos in Hpos'. injection Hpos' as <-.
  apply fill_station_inv in H
    as (lon & lat & op & pub & t0 & t1' & Hlon & Hlat & _ & _ & _ & _ & ->).
  unfold float_token, item in Hlon, Hlat. simpl in Hlon, Hlat.
  rewrite Hsplit in Hlon, Hlat. simpl in Hlon, Hlat.
  destruct (float t2) as [lon'|]; [|discriminate]. injection Hlon as ->.
  destruct (float t1) as [lat'|]; [|discriminate]. injection Hlat as ->.
  exists lat, lon. auto.
Qed.

(** X6: both times of the station are required.  A document whose
    description has no starting or no ending time never gives a
    dictionary; in a built dictionary [starting] and [ending] hold the two
    times and the two ISO columns hold [isoformat] of those same times. *)
Theorem temporal_extent_required (station_urn : string) (root : element)
    (ds : DescribeSensor datetime) :
  IoosDescribeSensor root = Ok ds ->
  (starting ds = None \/ ending ds = None ->
   is_ok (build_station station_urn root) = false) /\
  (forall station,
     build_station station_urn root = Ok station ->
     exists t0 t1,
       starting ds = Some t0 /\ ending ds = Some t1 /\
       getitem station "starting" = Some (VDatetime t0) /\
       getitem station "ending" = Some (VDatetime t1) /\
       getitem station "starting_isostr" = Some (VStr (isoformat t0)) /\
       getitem station "ending_isostr" = Some (VStr (isoformat t1))).
Proof.
  intros Hds.
  assert (forall station,
     build_station station_urn root = Ok station ->
     exists t0 t1,
       starting ds = Some t0 /\ ending ds = Some t1 /\
       getitem station "starting" = Some (VDatetime t0) /\
       getitem station "ending" = Some (VDatetime t1) /\
       getitem station "starting_isostr" = Some (VStr (isoformat t0)) /\
       getitem station "ending_isostr" = Some (VStr (isoformat t1))) as Hbuilt.
  { intros station H.
    apply build_station_inv in H
      as (ds' & pos & el & web & d & ql & Hds' & _ & _ & _ & _ & _ & H).
    rewrite Hds in Hds'. injection Hds' as <-.
    apply fill_station_inv in H
      as (lon & lat & op & pub & t0 & t1 & _ & _ & _ & _ & E0 & E1 & ->).
    exists t0, t1. unfold station_dict. simpl. rewrite E0, E1. simpl. auto 10. }
  split; [|exact Hbuilt].
  intros Hnone.
  destruct (build_station station_urn root) as [station|]; [|reflexivity].
  destruct (Hbuilt station eq_refl) as (t0 & t1 & E0 & E1 & _).
  destruct Hnone; congruence.
Qed.

Lemma comprehension_definitions_fail (qs : list element) :
  forallb has_definition qs = false ->
  comprehension (fun q => getattr q "definition") qs = Raise (KeyError "definition").
Proof.
  induction qs as [|q qs IH]; simpl; [discriminate|].
  unfold has_definition at 1, getattr at 1.
  destruct (attrib q !! "definition"); simpl; [|reflexivity].
  intros H. rewrite (IH H). reflexivity.
Qed.

(** X7: one quantity of the output list without a [definition] attribute
    is enough to stop the station: the list of URIs is not built, the
    exception is the [KeyError] of [definition], and no dictionary is
    built from a document with that system element. *)
Theorem missing_definition_is_fatal (el : element) :
  forallb has_definition (quantities el) = false ->
  get_quant_lst (Some el) = Raise (KeyError "definition") /\
  forall station_urn root,
    get_system_el root = Ok (Some el) ->
    is_ok (build_station station_urn root) = false.
Proof.
  intros Hq.
  assert (get_quant_lst (Some el) = Raise (KeyError "definition")) as Hfail.
  { unfold get_quant_lst. simpl. fold (quantities el).
    apply comprehension_definitions_fail. exact Hq. }
  split; [exact Hfail|].
  intros urn root Hsys.
  destruct (build_station urn root) as [station|] eqn:E; [|reflexivity].
  apply build_station_inv in E
    as (ds & pos & el' & web & d & ql & _ & _ & Hsys' & _ & _ & Hq' & _).
  rewrite Hsys in Hsys'. injection Hsys' as <-. congruence.
Qed.

Lemma fill_contacts_fail contacts :
  forallb has_role_key contacts = false ->
  forall contacts_dct, fill_contacts contacts contacts_dct = Raise AttributeError.
Proof.
  induction contacts as [|c contacts IH]; simpl; [discriminate|].
  intros H m. unfold has_role_key at 1 in H.
  destruct (sml.Contact.role (Contact c)) as [role|] eqn:E.
  - rewrite (role_key_ok _ _ E) in H |- *. simpl in H |- *. apply IH. exact H.
  - rewrite (role_key_none _ E). reflexivity.
Qed.

(** X8: one contact member without a role is enough to stop the station,
    whatever roles the other members have: the dictionary of contacts is
    not built, the exception is [AttributeError], and no dictionary is
    built from a document with that system element. *)
Theorem contact_without_role_is_fatal (el : element) :
  forallb has_role_key (contact_members el) = false ->
  get_contacts_dct (Some el) = Raise AttributeError /\
  forall station_urn root,
    get_system_el root = Ok (Some el) ->
    is_ok (build_station station_urn root) = false.
Proof.
  intros Hc.
  assert (get_contacts_dct (Some el) = Raise AttributeError) as Hfail.
  { unfold get_contacts_dct. simpl. fold (contact_members el).
    apply fill_contacts_fail. exact Hc. }
  split; [exact Hfail|].
  intros urn root Hsys.
  destruct (build_station urn root) as [station|] eqn:E; [|reflexivity].
  apply build_station_inv in E
    as (ds & pos & el' & web & d & ql & _ & _ & Hsys' & _ & Hd & _).
  rewrite Hsys in Hsys'. injection Hsys' as <-. congruence.
Qed.

(** X9: the system element is looked for in the first member of the
    document only.  A document without a member raises [IndexError] at
    line 62 and gives no dictionary; a document whose first member holds
    no system gives no dictionary either, whatever its later members
    hold. *)
Theorem system_element_in_first_member (station_urn : string) (root : element) :
  (findall root (nsp "sml:member") = [] ->
   get_system_el root = Raise IndexError /\
   is_ok (build_station station_urn root) = false) /\
  (forall m rest,
     findall root (nsp "sml:member") = m :: rest ->
     get_system_el root = Ok (find m (nsp "sml:System")) /\
     (find m (nsp "sml:System") = None ->
      is_ok (build_station station_urn root) = false)).
Proof.
  split.
  - intros Hnil.
    assert (get_system_el root = Raise IndexError) as Hfail.
    { unfold get_system_el. rewrite Hnil. reflexivity. }
    split; [exact Hfail|].
    destruct (build_station station_urn root) as [station|] eqn:E; [|reflexivity].
    apply build_station_inv in E
      as (ds & pos & el' & web & d & ql & _ & _ & Hsys' & _). congruence.
  - intros m rest Hm.
    assert (get_system_el root = Ok (find m (nsp "sml:System"))) as Hsys.
    { unfold get_system_el. rewrite Hm. reflexivity. }
    split; [exact Hsys|].
    intros Hnone.
    destruct (build_station station_urn root) as [station|] eqn:E; [|reflexivity].
    apply build_station_inv in E
      as (ds & pos & el' & web & d & ql & _ & _ & Hsys' & _). congruence.
Qed.

Lemma last_contact_with_role key (before : list element) (c : element)
    (after : list element) :
  has_role key c = true -> existsb (has_role key) after = false ->
  last (contacts_with_role key (before ++ c :: after)) = Some (Contact c).
Proof.
  intros Hc Hafter. unfold contacts_with_role.
  rewrite List.filter_app. simpl. rewrite Hc. rewrite map_app. simpl.
  pose proof (last_contacts_with_role_none key after Hafter) as Hl.
  unfold contacts_with_role in Hl.
  rewrite last_app, last_cons, Hl. reflexivity.
Qed.

(** X10: the three operator columns of a built dictionary come from one
    contact, the last member in document order whose role key is
    [operator]: its organisation, its country and its URL, each [None]
    when the contact lacks it. *)
Theorem operator_columns_from_last_operator (station_urn : string)
    (root el : element) (station : OrderedDict pyfloat datetime)
    (before : list element) (c : element) (after : list element) :
  get_system_el root = Ok (Some el) ->
  build_station station_urn root = Ok station ->
  contact_members el = (before ++ c :: after)%list ->
  has_role "operator" c = true ->
  existsb (has_role "operator") after = false ->
  getitem station "operator_org"
  = Some (str_or_none (sml.Contact.organization (Contact c))) /\
  getitem station "operator_country"
  = Some (str_or_none (sml.Contact.country (Contact c))) /\
  getitem station "operator_url" = Some (str_or_none (sml.Contact.url (Contact c))).
Proof.
  intros Hsys H Hsplit Hc Hafter.
  apply build_station_inv in H
    as (ds & pos & el' & web & d & ql & _ & _ & Hsys' & _ & Hd & _ & H).
  rewrite Hsys in Hsys'. injection Hsys' as <-.
  apply fill_station_inv in H
    as (lon & lat & op & pub & t0 & t1 & _ & _ & Hop & _ & _ & _ & ->).
  rewrite (get_contacts_dct_lookup el d _ Hd), Hsplit in Hop.
  rewrite (last_contact_with_role _ _ _ _ Hc Hafter) in Hop.
  injection Hop as <-. repeat split; reflexivity.
Qed.

(** X11: the two publisher columns of a built dictionary come from the
    last member in document order whose role key is [publisher]: its
    organisation and its URL; the country of the publisher is in no
    column. *)
Theorem publisher_columns_from_last_publisher (station_urn : string)
    (root el : element) (station : OrderedDict pyfloat datetime)
    (before : list element) (c : element) (after : list element) :
  get_system_el root = Ok (Some el) ->
  build_station station_urn root = Ok station ->
  contact_members el = (before ++ c :: after)%list ->
  has_role "publisher" c = true ->
  existsb (has_role "publisher") after = false ->
  getitem station "publisher_org"
  = Some (str_or_none (sml.Contact.organization (Contact c))) /\
  getitem station "publisher_url" = Some (str_or_none (sml.Contact.url (Contact c))) /\
  getitem station "publisher_country" = None.
Proof.
  intros Hsys H Hsplit Hc Hafter.
  apply build_station_inv in H
    as (ds & pos & el' & web & d & ql & _ & _ & Hsys' & _ & Hd & _ & H).
  rewrite Hsys in Hsys'. injection Hsys' as <-.
  apply fill_station_inv in H
    as (lon & lat & op & pub & t0 & t1 & _ & _ & _ & Hpub & _ & _ & ->).
  rewrite (get_contacts_dct_lookup el d _ Hd), Hsplit in Hpub.
  rewrite (last_contact_with_role _ _ _ _ Hc Hafter) in Hpub.
  injection Hpub as <-. repeat split; reflexivity.
Qed.

Lemma no_comma_after_last (l : list string) :
  forallb (fun s => negb (occurs "," s)) l = true ->
  forallb (fun s => negb (occurs "," s)) (map (after_last "/") l) = true.
Proof.
  induction l as [|x l IH]; simpl; [reflexivity|].
  intros H. apply andb_true_iff in H as [Hx Hl].
  rewrite (IH Hl), andb_true_r.
  apply negb_true_iff in Hx. apply negb_true_iff.
  destruct (occurs "," (after_last "/" x)) eqn:E; [|reflexivity].
  apply occurs_after_last in E. congruence.
Qed.

(** X12: when the station declares at least one quantity and no
    definition URI holds a comma, the two parameter columns of a built
    dictionary can be split back at the commas: [parameter_uris] into the
    URIs and [parameters] into their short names, in document order. *)
Theorem parameter_columns_split_back (station_urn : string) (root el : element)
    (station : OrderedDict pyfloat datetime) (quant_lst : list string) :
  get_system_el root = Ok (Some el) ->
  build_station station_urn root = Ok station ->
  get_quant_lst (Some el) = Ok quant_lst ->
  quant_lst <> [] ->
  forallb (fun uri => negb (occurs "," uri)) quant_lst = true ->
  exists uris names,
    getitem station "parameter_uris" = Some (VStr uris) /\
    getitem station "parameters" = Some (VStr names) /\
    split "," uris = quant_lst /\
    split "," names = map (after_last "/") quant_lst.
Proof.
  intros Hsys H Hq Hne Hcomma.
  apply build_station_inv in H
    as (ds & pos & el' & web & d & ql & _ & _ & Hsys' & _ & _ & Hq' & H).
  rewrite Hsys in Hsys'. injection Hsys' as <-.
  rewrite Hq in Hq'. injection Hq' as <-.
  apply fill_station_inv in H
    as (lon & lat & op & pub & t0 & t1 & _ & _ & _ & _ & _ & _ & ->).
  exists (join "," quant_lst), (join "," (map (after_last "/") quant_lst)).
  split; [reflexivity|]. split; [reflexivity|]. split.
  - apply split_join; assumption.
  - apply split_join; [|apply no_comma_after_last; exact Hcomma].
    destruct quant_lst; [congruence|discriminate].
Qed.

End StationExtras.

Section StationSuccess.

Context {pyfloat datetime service collector : Type}.
Context `{imports : !Imports pyfloat datetime service collector}.

(** X19: each descriptive column of a built dictionary is one lookup on
    the description of the station: the two names and the platform type
    are its attributes, [wmoID] is looked up as an identifier, and
    [parentNetwork], [sponsor], [operatorSector] and [publisher] as
    classifiers; a value the description lacks is [None] in its column. *)
Theorem descriptive_columns (station_urn : string) (root : element)
    (ds : DescribeSensor datetime) (station : OrderedDict pyfloat datetime) :
  IoosDescribeSensor root = Ok ds ->
  build_station station_urn root = Ok station ->
  getitem station "shortName" = Some (str_or_none (shortName ds)) /\
  getitem station "longName" = Some (str_or_none (longName ds)) /\
  getitem station "wmoID"
  = Some (str_or_none (get_ioos_def ds "wmoID" "identifier" ont)) /\
  getitem station "platformType" = Some (str_or_none (platformType ds)) /\
  getitem station "parentNetwork"
  = Some (str_or_none (get_ioos_def ds "parentNetwork" "classifier" ont)) /\
  getitem station "sponsor"
  = Some (str_or_none (get_ioos_def ds "sponsor" "classifier" ont)) /\
  getitem station "operatorSector"
  = Some (str_or_none (get_ioos_def ds "operatorSector" "classifier" ont)) /\
  getitem station "publisher"
  = Some (str_or_none (get_ioos_def ds "publisher" "classifier" ont)).
Proof.
  intros Hds H.
  apply build_station_inv in H
    as (ds' & pos & el & web & d & ql & Hds' & _ & _ & _ & _ & _ & H).
  rewrite Hds in Hds'. injection Hds' as <-.
  apply fill_station_inv in H
    as (lon & lat & op & pub & t0 & t1 & _ & _ & _ & _ & _ & _ & ->).
  repeat split; reflexivity.
Qed.





End StationSuccess.

Section HarvestExtras.

Context {pyfloat datetime service collector : Type}.
Context `{imports : !Imports pyfloat datetime service collector}.

(** X13: the loop only appends.  After it has run over a list of URNs the
    dictionaries it started with are still there, in place and unchanged,
    followed by one new dictionary per URN; [station] is bound to the last
    new one, and is what it was when the list is empty. *)
Theorem loop_only_appends (src : source service) (l l' : locals pyfloat datetime)
    (station_idx : nat) (station_urns : list string) :
  loop src l station_idx station_urns = Ok l' ->
  exists recs,
    station_recs l' = (station_recs l ++ recs)%list /\
    length recs = length station_urns /\
    station l' = match last recs with Some rec => Some rec | None => station l end /\
    (station_urns = [] -> l' = l).
Proof.
  rewrite loop_records. intros H. bind_inv H recs. injection H as <-.
  exists recs. simpl. split; [reflexivity|].
  pose proof (records_length _ _ _ _ Erecs) as Hlen.
  split; [exact Hlen|]. split; [reflexivity|].
  intros ->. destruct recs; [|discriminate Hlen].
  simpl. rewrite app_nil_r. destruct l; reflexivity.
Qed.

Lemma records_first_failure (src : source service) (station_urns : list string) :
  forall station_idx i u e,
    station_urns !! i = Some u ->
    station_of src (station_idx + i) u = Raise e ->
    (forall j v, j < i -> station_urns !! j = Some v ->
                 is_ok (station_of src (station_idx + j) v) = true) ->
    records src station_idx station_urns = Raise e.
Proof.
  induction station_urns as [|u' rest IH]; intros idx i u e Hi He Hbefore.
  - discriminate Hi.
  - destruct i as [|i]; simpl in Hi |- *.
    + injection Hi as ->. rewrite Nat.add_0_r in He. rewrite He. reflexivity.
    + pose proof (Hbefore 0 u' ltac:(lia) eq_refl) as H0.
      rewrite Nat.add_0_r in H0.
      destruct (station_of src idx u'); [simpl|discriminate].
      rewrite (IH (S idx) i u e Hi).
      * reflexivity.
      * rewrite Nat.add_succ_comm. exact He.
      * intros j v Hj Hv. rewrite Nat.add_succ_comm.
        apply (Hbefore (S j)); [lia|exact Hv].
Qed.

(** X14: one station that fails stops the whole harvest.  The call raises
    the exception of the first station, in processing order, that does not
    build, and returns no table of the stations that did. *)
Theorem first_failure_stops_the_harvest (sos_url : string)
    (station_urns_sel : option (list string)) (station_urns : list string)
    (src : source service) (i : nat) (u : string) (e : exn) :
  station_source sos_url station_urns_sel = Ok (station_urns, src) ->
  station_urns !! i = Some u ->
  station_of src i u = Raise e ->
  (forall j v, j < i -> station_urns !! j = Some v ->
               is_ok (station_of src j v) = true) ->
  get_stations_df sos_url station_urns_sel = Raise e.
Proof.
  intros Hsrc Hi He Hbefore. unfold get_stations_df. rewrite Hsrc. simpl.
  rewrite tabulate_spec.
  rewrite (records_first_failure src station_urns 0 i u e Hi He Hbefore).
  reflexivity.
Qed.

Lemma station_of_discovered (sml_lst : list element) (i : nat) (u : string) :
  station_of (Discovered sml_lst) i u
  = match sml_lst !! i with
    | Some root => build_station u root
    | None => Raise IndexError
    end.
Proof. unfold station_of, fetch, item. destruct (sml_lst !! i); reflexivity. Qed.

(** X15: in the harvest of the advertised stations the documents belong to
    the URNs by position.  A batch shorter than the list of URNs never
    gives a table, and when the stations that have a document build the
    exception is [IndexError]. *)
Theorem short_batch_fails (sml_lst : list element) (station_urns : list string) :
  length sml_lst < length station_urns ->
  is_ok (tabulate (Discovered sml_lst) station_urns) = false /\
  ((forall j v, j < length sml_lst -> station_urns !! j = Some v ->
                is_ok (station_of (Discovered sml_lst) j v) = true) ->
   tabulate (Discovered sml_lst) station_urns = Raise IndexError).
Proof.
  intros Hlen.
  destruct (lookup_lt_is_Some_2 station_urns (length sml_lst) Hlen) as [u Hu].
  assert (station_of (Discovered sml_lst) (length sml_lst) u = Raise IndexError) as He.
  { rewrite station_of_discovered, lookup_ge_None_2 by lia. reflexivity. }
  split.
  - rewrite tabulate_spec.
    destruct (records (Discovered sml_lst) 0 station_urns) as [recs|] eqn:E;
      [|reflexivity].
    destruct (records_lookup _ _ _ _ _ _ E Hu) as (rec & _ & Hrec).
    simpl in Hrec. congruence.
  - intros Hbefore. rewrite tabulate_spec.
    rewrite (records_first_failure _ station_urns 0 (length sml_lst) u IndexError);
      auto.
Qed.

Lemma records_surplus (sml_lst surplus : list element) (station_urns : list string) :
  forall station_idx,
    station_idx + length station_urns <= length sml_lst ->
    records (Discovered (sml_lst ++ surplus)) station_idx station_urns
    = records (Discovered sml_lst) station_idx station_urns.
Proof.
  induction station_urns as [|u rest IH]; intros idx Hlen; simpl; [reflexivity|].
  simpl in Hlen.
  rewrite !station_of_discovered, lookup_app_l by lia.
  rewrite IH by lia. reflexivity.
Qed.

(** X16: documents of the batch beyond the number of URNs are never read:
    with at least one document per URN, the call returns what it returns
    on the batch without the surplus. *)
Theorem surplus_documents_ignored (sml_lst surplus : list element)
    (station_urns : list string) :
  length station_urns <= length sml_lst ->
  tabulate (Discovered (sml_lst ++ surplus)) station_urns
  = tabulate (Discovered sml_lst) station_urns.
Proof.
  intros Hlen. rewrite !tabulate_spec, records_surplus by (simpl; lia).
  reflexivity.
Qed.

Lemma default_station_urns_networks (offs : list sos.offering) :
  forallb (fun o => contains "network" (split ":" (sos.name o))) offs = true ->
  default_station_urns offs = [].
Proof.
  unfold default_station_urns. induction offs as [|o offs IH]; simpl; [reflexivity|].
  intros H. apply andb_true_iff in H as [Ho H]. rewrite Ho. simpl. exact (IH H).
Qed.

(** X17: an endpoint that advertises network offerings only, or none, has
    no default station; once its capabilities and its (empty) batch of
    documents have been fetched the call raises [UnboundLocalError] and
    returns no empty table. *)
Theorem only_network_offerings_raise (sos_url : string) (sos_collector : collector)
    (sml_lst : list element) :
  IoosSweSos sos_url = Ok sos_collector ->
  forallb (fun o => contains "network" (split ":" (sos.name o)))
          (offerings sos_collector) = true ->
  metadata sos_collector [] 200 = Ok sml_lst ->
  get_stations_df sos_url None = Raise (UnboundLocalError "station").
Proof.
  intros Hc Hnet Hm. unfold get_stations_df, station_source.
  rewrite Hc. simpl. rewrite (default_station_urns_networks _ Hnet), Hm.
  reflexivity.
Qed.






End HarvestExtras.

(** ** The further properties on the sample endpoint *)

Section FurtherOnTheSample.

Import Sample.
#[local] Existing Instance Sample.imports.


Lemma later_position_tokens_ignored_witness :
  exists lat lon,
    read_decimal "34.5" = Some lat /\ read_decimal "-120.3" = Some lon /\
    getitem (built buoy_urn with_height) "lat" = Some (VFloat lat) /\
    getitem (built buoy_urn with_height) "lon" = Some (VFloat lon).
Proof.
  eapply (later_position_tokens_ignored (imports := Sample.imports)
            buoy_urn with_height _ "34.5 -120.3 12.0m" "34.5" "-120.3" ["12.0m"]
            (built buoy_urn with_height));
    [reflexivity|reflexivity|reflexivity|vm_compute; reflexivity].
Defined.

Lemma temporal_extent_required_witness :
  is_ok (build_station buoy_urn timeless) = false.
Proof.
  edestruct (temporal_extent_required buoy_urn timeless) as [H _]; [reflexivity|].
  apply H. left. reflexivity.
Defined.

Lemma missing_definition_is_fatal_witness :
  get_quant_lst (Some undefined_system) = Raise (KeyError "definition") /\
  is_ok (build_station buoy_urn undefined) = false.
Proof.
  destruct (missing_definition_is_fatal undefined_system) as [H1 H2];
    [vm_compute; reflexivity|].
  split; [exact H1|]. apply H2. vm_compute; reflexivity.
Defined.

Lemma contact_without_role_is_fatal_witness :
  get_contacts_dct (Some roleless_system) = Raise AttributeError /\
  is_ok (build_station buoy_urn roleless) = false.
Proof.
  destruct (contact_without_role_is_fatal roleless_system) as [H1 H2];
    [vm_compute; reflexivity|].
  split; [exact H1|]. apply H2. vm_compute; reflexivity.
Defined.

Lemma system_element_in_first_member_witness :
  is_ok (build_station buoy_urn two_members) = false.
Proof.
  destruct (system_element_in_first_member buoy_urn two_members) as [_ H].
  destruct (H (node "sml:member" []) [node "sml:member" [buoy_system]]) as [_ H'];
    [vm_compute; reflexivity|].
  apply H'. vm_compute; reflexivity.
Defined.

Lemma operator_columns_from_last_operator_witness :
  getitem (built shared_urn shared) "operator_org" = Some (VStr "NANOOS") /\
  getitem (built shared_urn shared) "operator_url" = Some (VStr "http://www.nanoos.org").
Proof.
  destruct (operator_columns_from_last_operator shared_urn shared shared_system
              (built shared_urn shared) [operator_a; publisher_a] operator_b [])
    as (Horg & _ & Hurl); try (vm_compute; reflexivity).
  split; [exact Horg|exact Hurl].
Defined.

Lemma publisher_columns_from_last_publisher_witness :
  getitem (built shared_urn shared) "publisher_org" = Some (VStr "NANOOS").
Proof.
  refine (proj1 (publisher_columns_from_last_publisher shared_urn shared shared_system
                   (built shared_urn shared) [operator_a] publisher_a [operator_b]
                   _ _ _ _ _)); vm_compute; reflexivity.
Defined.

Lemma parameter_columns_split_back_witness :
  exists uris names,
    getitem buoy_record "parameter_uris" = Some (VStr uris) /\
    getitem buoy_record "parameters" = Some (VStr names) /\
    split "," uris = definitions /\
    split "," names = ["sea_water_temperature"; "air_pressure"].
Proof.
  apply (parameter_columns_split_back buoy_urn buoy buoy_system buoy_record definitions);
    try (vm_compute; reflexivity).
  discriminate.
Defined.

Lemma loop_only_appends_witness :
  exists recs,
    [bare_record; buoy_record] = ([bare_record] ++ recs)%list /\ length recs = 1.
Proof.
  destruct (loop_only_appends (Selected tt)
              {| station_recs := [bare_record]; station := Some bare_record |}
              {| station_recs := [bare_record; buoy_record];
                 station := Some buoy_record |} 5 [buoy_urn])
    as (recs & H1 & H2 & _); [vm_compute; reflexivity|].
  exists recs. split; [exact H1|exact H2].
Defined.

Lemma first_failure_stops_the_harvest_witness :
  get_stations_df sos_url (Some [buoy_urn; "urn:ioos:station:nanoos:gone"; bare_urn])
  = Raise (External "no such procedure").
Proof.
  apply (first_failure_stops_the_harvest sos_url
           (Some [buoy_urn; "urn:ioos:station:nanoos:gone"; bare_urn])
           [buoy_urn; "urn:ioos:station:nanoos:gone"; bare_urn] (Selected tt)
           1 "urn:ioos:station:nanoos:gone").
  - vm_compute; reflexivity.
  - reflexivity.
  - vm_compute; reflexivity.
  - intros [|j] v Hj Hv; [|lia]. injection Hv as <-. vm_compute; reflexivity.
Defined.

Lemma short_batch_fails_witness :
  tabulate (Discovered [buoy]) [buoy_urn; bare_urn] = Raise IndexError.
Proof.
  destruct (short_batch_fails [buoy] [buoy_urn; bare_urn]) as [_ H]; [simpl; lia|].
  apply H. intros [|j] v Hj Hv; [|simpl in Hj; lia].
  injection Hv as <-. vm_compute; reflexivity.
Defined.

Lemma surplus_documents_ignored_witness :
  tabulate (Discovered [buoy; bare; shared]) [buoy_urn; bare_urn]
  = tabulate (Discovered [buoy; bare]) [buoy_urn; bare_urn].
Proof.
  apply (surplus_documents_ignored [buoy; bare] [shared] [buoy_urn; bare_urn]).
  simpl. lia.
Defined.

Lemma only_network_offerings_raise_witness :
  get_stations_df (imports := networks_only) sos_url None
  = Raise (UnboundLocalError "station").
Proof.
  apply (only_network_offerings_raise (imports := networks_only) sos_url tt []);
    vm_compute; reflexivity.
Defined.


Lemma descriptive_columns_witness :
  getitem buoy_record "shortName" = Some (VStr "NDBC 46050") /\
  getitem buoy_record "wmoID" = Some VNone.
Proof.
  edestruct (descriptive_columns buoy_urn buoy) as (H1 & _ & H3 & _);
    [reflexivity|vm_compute; reflexivity|].
  split; [exact H1|exact H3].
Defined.


End FurtherOnTheSample.
